(** * api2go: resource dispatch, pagination links, content negotiation

    A shallow embedding of [api.go] (package [api2go]) and of the error
    model exercised by [error_test.go], with the properties of the
    repository's specification stated and proved over it.

    Conventions of the embedding:
    - Go [string] is [string]; [uint64] and [uint] are [Z] with the
      wrap-around of every arithmetic operation written out ([wrap64]);
    - Go maps ([url.Values], [http.Header], the marshaler map, the link map)
      are [gmap]s keyed by strings;
    - a Go function returning [(T, error)] returns a [result]; a function
      that can panic returns an [outcome];
    - handlers thread the response writer, the backend's state and the log
      of backend calls through a small state-and-error monad. *)

From Stdlib Require Import ZArith Lia Bool Ascii String DecimalString.
From Stdlib Require DecimalPos DecimalN.
From stdpp Require Import base option list strings gmap.

Local Open Scope string_scope.
Local Open Scope list_scope.
Local Open Scope Z_scope.

Set Warnings "-register-all".

(** ** Go values shared by the whole package *)

(** The structured error of [error.go]: status, message, the wrapped error
    and the nested errors with their running count.

    Modelled from the spec: [error.go] itself is not among the sources, only
    its test [error_test.go] and its callers in [api.go] are.  The fields
    are the ones the spec's data model lists and the ones the test and
    [api.go] read ([status], [errors], [errorsCount]); [err] is [None] for
    Go's [nil]. *)
Inductive httpError : Type :=
  mk_httpError {
    err : option string;
    msg : string;
    status : Z;
    errors : list httpError;
    errorsCount : Z
  }.

(** Go's [error] interface values met in [api.go]: [errors.New] and
    [fmt.Errorf] strings, the [*strconv.NumError] of [strconv.ParseUint],
    and the structured error. *)
Inductive error : Type :=
  | errorString (s : string)
  | NumError (func num reason : string)
  | HTTPError (e : httpError).

Inductive result (A : Type) : Type :=
  | Ok (a : A)
  | Err (e : error).
Arguments Ok {A} a.
Arguments Err {A} e.

(** A call either returns or panics (run-time panics of Go: integer division
    by zero, index out of range, explicit [panic]). *)
Inductive outcome (A : Type) : Type :=
  | Returns (a : A)
  | Panics (reason : string).
Arguments Returns {A} a.
Arguments Panics {A} reason.

Definition divide_by_zero : string := "runtime error: integer divide by zero".
Definition index_out_of_range : string := "runtime error: index out of range".

(** ** Machine integers and [strconv] *)

Definition maxUint64 : Z := 18446744073709551615.

Definition wrap64 (z : Z) : Z := z mod 2 ^ 64.

Definition is_digit (c : ascii) : bool :=
  let n := Z.of_N (N_of_ascii c) in (48 <=? n) && (n <=? 57).

Definition digit_value (c : ascii) : Z := Z.of_N (N_of_ascii c) - 48.

(** The digit loop of [strconv.ParseUint(s, 10, 64)]: a byte that is no
    decimal digit is a syntax error; a value that leaves [uint64] is a range
    error.  [cutoff] is the smallest [n] with [n * 10 > maxUint64]. *)
Definition cutoff : Z := maxUint64 / 10 + 1.

Fixpoint parse_digits (orig : string) (s : string) (n : Z) : result Z :=
  match s with
  | EmptyString => Ok n
  | String c rest =>
      if is_digit c then
        if cutoff <=? n then Err (NumError "ParseUint" orig "value out of range")
        else
          let n1 := n * 10 + digit_value c in
          if maxUint64 <? n1 then Err (NumError "ParseUint" orig "value out of range")
          else parse_digits orig rest n1
      else Err (NumError "ParseUint" orig "invalid syntax")
  end.

Definition ParseUint (s : string) : result Z :=
  match s with
  | EmptyString => Err (NumError "ParseUint" s "invalid syntax")
  | _ => parse_digits s s 0
  end.

(** [strconv.FormatUint(n, 10)]. *)
Definition FormatUint (n : Z) : string :=
  NilZero.string_of_uint (N.to_uint (Z.to_N n)).

(** ** Requests *)

(** [url.Values]: the parsed query string. *)
Abbreviation Values := (gmap string (list string)).

(** [Values.Get]: the first value of the key, or the empty string. *)
Definition Values_Get (v : Values) (key : string) : string :=
  match v !! key with
  | Some (x :: _) => x
  | _ => ""
  end.

(** [Values.Set]: the key is bound to exactly the one new value. *)
Definition Values_Set (v : Values) (key value : string) : Values :=
  <[key := [value]]> v.

Fixpoint insert_key (k : string * list string) (l : list (string * list string))
  : list (string * list string) :=
  match l with
  | [] => [k]
  | h :: t => if String.leb k.1 h.1 then k :: l else h :: insert_key k t
  end.

Definition sorted_by_key (l : list (string * list string)) : list (string * list string) :=
  foldr insert_key [] l.

Fixpoint join_amp (l : list string) : string :=
  match l with
  | [] => ""
  | [x] => x
  | x :: t => x +:+ "&" +:+ join_amp t
  end.

(** [url.QueryUnescape(params.Encode())]: [Encode] walks the keys in sorted
    order and writes [key=value] pairs joined by [&], escaping key and
    value; unescaping the whole gives the raw pairs back. *)
Definition unescapedQuery (v : Values) : string :=
  join_amp
    (flat_map (fun kv => map (fun x => kv.1 +:+ "=" +:+ x) kv.2)
              (sorted_by_key (map_to_list v))).

(** [*url.URL]: the path and the [key=value] pairs of the query string, in
    the order they are written. *)
Record URL := { Path : string; RawQuery : list (string * string) }.

(** [URL.Query()]: every pair appends its value to the values of its key. *)
Definition URL_Query (u : URL) : Values :=
  foldl (fun (m : Values) kv => <[kv.1 := default [] (m !! kv.1) ++ [kv.2]]> m)
        ∅ (RawQuery u).

(** [*http.Request], as far as [api.go] reads it.  [Body] is what
    [ioutil.ReadAll(r.Body)] yields. *)
Record Request := {
  Method : string;
  RequestURL : URL;
  Header : gmap string (list string);
  Body : result string
}.

Record information := { info_prefix : string; baseURL : string }.

Definition GetBaseURL (i : information) : string := baseURL i.
Definition GetPrefix (i : information) : string := info_prefix i.

(** ** Pagination *)

Record paginationQueryParams := {
  number : string;
  size : string;
  offset : string;
  limit : string
}.

Definition newPaginationQueryParams (r : Request) : paginationQueryParams :=
  let queryParams := URL_Query (RequestURL r) in
  {| number := Values_Get queryParams "page[number]";
     size := Values_Get queryParams "page[size]";
     offset := Values_Get queryParams "page[offset]";
     limit := Values_Get queryParams "page[limit]" |}.

Definition isValid (p : paginationQueryParams) : bool :=
  if String.eqb (number p) "" && String.eqb (size p) ""
     && String.eqb (offset p) "" && String.eqb (limit p) "" then false
  else if negb (String.eqb (number p) "") && negb (String.eqb (size p) "")
     && String.eqb (offset p) "" && String.eqb (limit p) "" then true
  else if String.eqb (number p) "" && String.eqb (size p) ""
     && negb (String.eqb (offset p) "") && negb (String.eqb (limit p) "") then true
  else false.

Abbreviation Links := (gmap string string).

(** [fmt.Sprintf("%s?%s", requestURL, query)] with
    [query, _ := url.QueryUnescape(params.Encode())]. *)
Definition link (requestURL : string) (params : Values) : string :=
  requestURL +:+ "?" +:+ unescapedQuery params.

(** [getLinks] has named results [(result, err)]: an early [return] hands
    back the links written so far together with the parse error.  [count] is
    Go's [uint], converted with [uint64(count)]. *)
Definition getLinks (p : paginationQueryParams) (r : Request) (count : Z)
    (info : information) : outcome (Links * option error) :=
  let result : Links := ∅ in
  let params := URL_Query (RequestURL r) in
  let prefix := if negb (String.eqb (GetBaseURL info) "") then GetBaseURL info else "" in
  let requestURL := prefix +:+ Path (RequestURL r) in
  if negb (String.eqb (number p) "") then
    (* we have number & size params *)
    match ParseUint (number p) with
    | Err e => Returns (result, Some e)
    | Ok number_ =>
        let '(params, result) :=
          if negb (String.eqb (number p) "1") then
            let params := Values_Set params "page[number]" "1" in
            let result := <["first" := link requestURL params]> result in
            let params :=
              Values_Set params "page[number]" (FormatUint (wrap64 (number_ - 1))) in
            let result := <["prev" := link requestURL params]> result in
            (params, result)
          else (params, result) in
        (* calculate last page number *)
        match ParseUint (size p) with
        | Err e => Returns (result, Some e)
        | Ok size_ =>
            if size_ =? 0 then Panics divide_by_zero
            else
              let totalPages := count / size_ in
              let totalPages :=
                if negb (count mod size_ =? 0) then wrap64 (totalPages + 1)
                else totalPages in
              if negb (number_ =? totalPages) then
                let params :=
                  Values_Set params "page[number]" (FormatUint (wrap64 (number_ + 1))) in
                let result := <["next" := link requestURL params]> result in
                let params := Values_Set params "page[number]" (FormatUint totalPages) in
                let result := <["last" := link requestURL params]> result in
                Returns (result, None)
              else Returns (result, None)
        end
    end
  else
    (* we have offset & limit params *)
    match ParseUint (offset p) with
    | Err e => Returns (result, Some e)
    | Ok offset_ =>
        match ParseUint (limit p) with
        | Err e => Returns (result, Some e)
        | Ok limit_ =>
            let '(params, result) :=
              if negb (String.eqb (offset p) "0") then
                let params := Values_Set params "page[offset]" "0" in
                let result := <["first" := link requestURL params]> result in
                let prevOffset :=
                  if offset_ <? limit_ then 0 else wrap64 (offset_ - limit_) in
                let params := Values_Set params "page[offset]" (FormatUint prevOffset) in
                let result := <["prev" := link requestURL params]> result in
                (params, result)
              else (params, result) in
            (* check if there are more entries to be loaded *)
            if wrap64 (offset_ + limit_) <? count then
              let params :=
                Values_Set params "page[offset]" (FormatUint (wrap64 (offset_ + limit_))) in
              let result := <["next" := link requestURL params]> result in
              let params :=
                Values_Set params "page[offset]" (FormatUint (wrap64 (count - limit_))) in
              let result := <["last" := link requestURL params]> result in
              Returns (result, None)
            else Returns (result, None)
        end
    end.


(** ** The error model *)

(** [NewHTTPError(err, msg, status)] returns the structured error as an
    [error]; a struct literal leaves the nested errors empty and the count
    at Go's zero value.

    Modelled from the spec: [error.go] is not among the sources.  The
    constructor takes the three arguments [api.go] and [error_test.go] pass. *)
Definition NewHTTPError (err : option string) (msg : string) (status : Z) : error :=
  HTTPError (mk_httpError err msg status [] 0).

(** [func (e *httpError) AddHTTPError(err httpError)]: the receiver is
    updated in place, the argument is passed by value.

    Modelled from the spec: [error.go] is not among the sources.  The child
    is appended to the ordered sequence of nested errors, as the spec says.
    For the running count the spec's words and [error_test.go] disagree: the
    test, the only code of the error model among the sources, appends an
    error to itself twenty times and expects [errorsCount = 20 =
    len(errors)], which an append that adds the child's count cannot give.
    This definition counts one per append, as the test requires;
    [AddHTTPError_spec] below is the append in the spec's words. *)
Definition AddHTTPError (e child : httpError) : httpError :=
  mk_httpError (err e) (msg e) (status e) (errors e ++ [child]) (errorsCount e + 1).

(** Modelled from the spec: the error model in the spec's own words, a new
    node counting itself and an append adding the child's count, kept for
    comparison with [NewHTTPError] and [AddHTTPError]. *)
Definition NewHTTPError_spec (err : option string) (msg : string) (status : Z) : error :=
  HTTPError (mk_httpError err msg status [] 1).

Definition AddHTTPError_spec (e child : httpError) : httpError :=
  mk_httpError (err e) (msg e) (status e) (errors e ++ [child])
               (errorsCount e + errorsCount child).

(** The loop of [error_test.go]: [httpErr.AddHTTPError(httpErr)], [n] times. *)
Fixpoint add_to_itself (add : httpError -> httpError -> httpError) (n : nat)
    (httpErr : httpError) : httpError :=
  match n with
  | O => httpErr
  | S k => add_to_itself add k (add httpErr httpErr)
  end.

(** The test "can create array tree" of [error_test.go], for a given
    constructor and append: the three expectations of the test. *)
Definition can_create_array_tree
    (new : option string -> string -> Z -> error)
    (add : httpError -> httpError -> httpError) : bool :=
  match new (Some "hi") "hi" 0 with
  | HTTPError httpErr =>
      let httpErr := add_to_itself add 20 httpErr in
      (errorsCount httpErr =? 20)
      && (Z.of_nat (length (errors httpErr)) =? errorsCount httpErr)
  | _ => false
  end.

(** Sum of the counts of the immediate children. *)
Definition children_count (e : httpError) : Z :=
  foldr (fun c acc => errorsCount c + acc) 0 (errors e).


(** The same for the model in the spec's words. *)
Inductive built_spec : httpError -> Prop :=
  | built_spec_new err msg status e :
      NewHTTPError_spec err msg status = HTTPError e -> built_spec e
  | built_spec_add e child :
      built_spec e -> built_spec child -> built_spec (AddHTTPError_spec e child).

(** ** Documents and content marshalers *)

(** What [encoding/json] decodes into [interface{}]. *)
Inductive JSON : Type :=
  | JNull
  | JBool (b : bool)
  | JNumber (repr : string)
  | JString (s : string)
  | JArray (items : list JSON)
  | JObject (fields : list (string * JSON)).

(** [map[string]interface{}]: the bindings of a JSON object; a key is looked
    up at its first binding. *)
Abbreviation Document := (list (string * JSON)).

Fixpoint lookup_key (k : string) (d : Document) : option JSON :=
  match d with
  | [] => None
  | (k', v) :: rest => if String.eqb k k' then Some v else lookup_key k rest
  end.

Fixpoint set_key (k : string) (v : JSON) (d : Document) : Document :=
  match d with
  | [] => [(k, v)]
  | (k', v') :: rest =>
      if String.eqb k k' then (k, v) :: rest else (k', v') :: set_key k v rest
  end.

Definition links_value (links : Links) : JSON :=
  JObject (map (fun kv => (kv.1, JString kv.2)) (map_to_list links)).

(** The interface [ContentMarshaler]; [Unmarshal] fills a
    [map[string]interface{}]. *)
Record ContentMarshaler := {
  Marshal : JSON -> result string;
  Unmarshal : string -> result Document
}.

(** [map[string]ContentMarshaler]; a key can hold Go's [nil] interface value,
    which is [None] here. *)
Abbreviation Marshalers := (gmap string (option ContentMarshaler)).

(** [marshalers[contentType]]: [nil] for a missing key. *)
Definition marshaler_at (marshalers : Marshalers) (contentType : string)
  : option ContentMarshaler :=
  mjoin (marshalers !! contentType).

Definition jsonapi_mime : string := "application/vnd.api+json".

Definition StatusOK : Z := 200.
Definition StatusNoContent : Z := 204.
Definition StatusNotFound : Z := 404.
Definition StatusInternalServerError : Z := 500.

(** ** Types, prototypes and references *)

(** [reflect.Type], as far as registration reads it. *)
Inductive reflect_Type : Type :=
  | StructType (name : string)
  | PtrType (elem : reflect_Type)
  | OtherType (name : string).

Inductive reflect_Kind := Struct | Ptr | OtherKind.

Definition Kind (t : reflect_Type) : reflect_Kind :=
  match t with
  | StructType _ => Struct
  | PtrType _ => Ptr
  | OtherType _ => OtherKind
  end.

Definition Name (t : reflect_Type) : string :=
  match t with
  | StructType n => n
  | PtrType _ => ""
  | OtherType n => n
  end.

Definition Elem (t : reflect_Type) : reflect_Type :=
  match t with
  | PtrType e => e
  | _ => t
  end.

(** [jsonapi.Reference]. *)
Record Reference := { ref_Type : string; ref_Name : string }.

(** A prototype handed to [AddResource]: its dynamic type, its references
    when it implements [jsonapi.MarshalReferences], and whether the pointer
    to it implements [jsonapi.EditToManyRelations]. *)
Record Prototype := {
  TypeOf : reflect_Type;
  GetReferences : option (list Reference);
  ptr_EditToManyRelations : bool
}.

(** [api2go.Request], what a backend receives. *)
Record APIRequest := {
  PlainRequest : Request;
  QueryParams : gmap string (list string);
  APIHeader : gmap string (list string)
}.

(** [strings.Split(s, ",")]. *)
Fixpoint Split_comma (s : string) : list string :=
  match s with
  | EmptyString => [""]
  | String c rest =>
      if Ascii.eqb c "," then "" :: Split_comma rest
      else match Split_comma rest with
           | h :: t => String c h :: t
           | [] => [String c ""]
           end
  end.

(** [buildRequest]: [values[0]] is read for every key of [r.URL.Query()],
    whose value lists are never empty ([URL_Query_values_nonempty]). *)
Definition buildRequest (r : Request) : APIRequest :=
  {| PlainRequest := r;
     QueryParams := (fun values => Split_comma (hd "" values)) <$> URL_Query (RequestURL r);
     APIHeader := Header r |}.

(** ** External collaborators *)

(** The functions [api.go] calls and does not define: the document codec of
    package [jsonapi], content negotiation of [httputil], [encoding/json]
    behind [JSONContentMarshaler], [marshalError] of [error.go], and the
    name helpers of [jsonapi].  They are arbitrary functions over [Obj], the
    values a backend stores and returns ([interface{}] in Go). *)
Class Externals (Obj : Type) := {
  MarshalWithURLs : Obj -> information -> result Document;
  UnmarshalInto : Document -> reflect_Type -> list Obj -> result (list Obj);
  NegotiateContentType : Request -> list string -> string -> string;
  json_Marshal : JSON -> result string;
  json_Unmarshal : string -> result Document;
  marshalError : error -> ContentMarshaler -> string;
  Pluralize : string -> string;
  Jsonify : string -> string
}.

(** The interface [CRUD] over a backend with state [BS], together with the
    optional interfaces [FindAll] and [PaginatedFindAll]: [None] when the
    type assertion [res.source.(FindAll)] fails. *)
Record CRUD (Obj BS : Type) := {
  FindOne : string -> APIRequest -> BS -> result Obj * BS;
  Create : Obj -> APIRequest -> BS -> result string * BS;
  Delete : string -> APIRequest -> BS -> option error * BS;
  Update : Obj -> APIRequest -> BS -> option error * BS;
  FindAll : option (APIRequest -> BS -> result Obj * BS);
  PaginatedFindAll : option (APIRequest -> BS -> result (Obj * Z) * BS)
}.
Arguments FindOne {Obj BS} _ _ _ _.
Arguments Create {Obj BS} _ _ _ _.
Arguments Delete {Obj BS} _ _ _ _.
Arguments Update {Obj BS} _ _ _ _.
Arguments FindAll {Obj BS} _.
Arguments PaginatedFindAll {Obj BS} _.

(** The backend calls a handler makes, in order. *)
Inductive Call (Obj : Type) : Type :=
  | FindOne_call (id : string)
  | Create_call (obj : Obj)
  | Delete_call (id : string)
  | Update_call (obj : Obj)
  | FindAll_call
  | PaginatedFindAll_call.
Arguments FindOne_call {Obj} id.
Arguments Create_call {Obj} obj.
Arguments Delete_call {Obj} id.
Arguments Update_call {Obj} obj.
Arguments FindAll_call {Obj}.
Arguments PaginatedFindAll_call {Obj}.

(** [http.ResponseWriter]: the header map, the status line once written, and
    the body. *)
Record ResponseWriter := {
  w_header : gmap string (list string);
  w_status : option Z;
  w_body : string
}.

Definition new_writer : ResponseWriter :=
  {| w_header := ∅; w_status := None; w_body := "" |}.

(** [w.Header().Set(key, value)]. *)
Definition Header_Set (key value : string) (w : ResponseWriter) : ResponseWriter :=
  {| w_header := <[key := [value]]> (w_header w);
     w_status := w_status w; w_body := w_body w |}.

(** [w.WriteHeader(status)]: the first call wins. *)
Definition WriteHeader (code : Z) (w : ResponseWriter) : ResponseWriter :=
  match w_status w with
  | Some _ => w
  | None => {| w_header := w_header w; w_status := Some code; w_body := w_body w |}
  end.

(** [w.Write(data)]: writes the status 200 first when none was written. *)
Definition Write (data : string) (w : ResponseWriter) : ResponseWriter :=
  let w := WriteHeader StatusOK w in
  {| w_header := w_header w; w_status := w_status w; w_body := w_body w +:+ data |}.

Definition writeResult (data : string) (code : Z) (contentType : string)
    (w : ResponseWriter) : ResponseWriter :=
  Write data (WriteHeader code (Header_Set "Content-Type" contentType w)).

Section Engine.
Context {Obj BS : Type} `{!Externals Obj}.

(** *** Content negotiation *)

Definition JSONContentMarshaler : ContentMarshaler :=
  {| Marshal := json_Marshal; Unmarshal := json_Unmarshal |}.

Definition DefaultContentMarshalers : Marshalers :=
  {[ jsonapi_mime := Some JSONContentMarshaler ]}.

(** [selectContentMarshaler].  Go walks the marshaler map in an order it
    does not specify; the offers reach [NegotiateContentType], an arbitrary
    function here, in the order of [map_to_list].  [contentTypes[0]]
    panics on a [Content-Type] entry without values. *)
Definition selectContentMarshaler (r : Request) (marshalers : Marshalers)
  : outcome (ContentMarshaler * string) :=
  let chosen : outcome (option ContentMarshaler * string) :=
    match Header r !! "Accept" with
    | Some _ =>
        let contentTypes := (map_to_list marshalers).*1 in
        let contentType := NegotiateContentType r contentTypes jsonapi_mime in
        Returns (marshaler_at marshalers contentType, contentType)
    | None =>
        match Header r !! "Content-Type" with
        | Some contentTypes =>
            match contentTypes with
            | contentType :: _ =>
                Returns (marshaler_at marshalers contentType, contentType)
            | [] => Panics index_out_of_range
            end
        | None => Returns (None, "")
        end
    end in
  match chosen with
  | Panics reason => Panics reason
  | Returns (Some marshaler, contentType) => Returns (marshaler, contentType)
  | Returns (None, _) => Returns (JSONContentMarshaler, jsonapi_mime)
  end.


(** *** The monad of handlers *)

(** What a handler works on: the response writer, the backend's state and
    the log of backend calls. *)
Record World := {
  writer : ResponseWriter;
  store : BS;
  calls : list (Call Obj)
}.

(** A handler step returns a value or a Go [error], or panics. *)
Definition handler (A : Type) : Type := World -> outcome (result A * World).

#[global] Instance handler_ret : MRet handler :=
  fun A (a : A) (w : World) => Returns (Ok a, w).

#[global] Instance handler_bind : MBind handler :=
  fun A B (f : A -> handler B) (m : handler A) (w : World) =>
    match m w with
    | Returns (Ok a, w') => f a w'
    | Returns (Err e, w') => Returns (Err e, w')
    | Panics reason => Panics reason
    end.

(** [return err]. *)
Definition fail {A : Type} (e : error) : handler A :=
  fun w => Returns (Err e, w).

Definition of_result {A : Type} (x : result A) : handler A :=
  fun w => Returns (match x with Ok a => Ok a | Err e => Err e end, w).

Definition of_outcome {A : Type} (x : outcome A) : handler A :=
  fun w => match x with
           | Returns a => Returns (Ok a, w)
           | Panics reason => Panics reason
           end.

Definition on_writer (f : ResponseWriter -> ResponseWriter) : handler unit :=
  fun w => Returns (Ok tt, {| writer := f (writer w); store := store w; calls := calls w |}).

(** A backend call: the backend's state moves on and the call is logged. *)
Definition backend_call {A : Type} (c : Call Obj) (f : BS -> result A * BS) : handler A :=
  fun w =>
    let '(x, s) := f (store w) in
    Returns (x, {| writer := writer w; store := s; calls := calls w ++ [c] |}).

Definition of_error (x : option error) : result unit :=
  match x with
  | None => Ok tt
  | Some e => Err e
  end.

(** *** Responses *)

Definition marshalResponse (resp : JSON) (code : Z) (r : Request)
    (marshalers : Marshalers) : handler unit :=
  '(marshaler, contentType) ← of_outcome (selectContentMarshaler r marshalers);
  result ← of_result (Marshal marshaler resp);
  on_writer (writeResult result code contentType).

Definition respondWith (obj : Obj) (info : information) (code : Z) (r : Request)
    (marshalers : Marshalers) : handler unit :=
  data ← of_result (MarshalWithURLs obj info);
  marshalResponse (JObject data) code r marshalers.

Definition respondWithPagination (obj : Obj) (info : information) (code : Z)
    (links : Links) (r : Request) (marshalers : Marshalers) : handler unit :=
  data ← of_result (MarshalWithURLs obj info);
  let data := set_key "links" (links_value links) data in
  marshalResponse (JObject data) code r marshalers.

Definition unmarshalRequest (r : Request) (marshalers : Marshalers) : handler Document :=
  data ← of_result (Body r);
  '(marshaler, _) ← of_outcome (selectContentMarshaler r marshalers);
  of_result (Unmarshal marshaler data).

(** [handleError]: a structured error answers with its own status, any
    other error with 500. *)
Definition handleError (e : error) (r : Request) (marshalers : Marshalers)
  : handler unit :=
  '(marshaler, contentType) ← of_outcome (selectContentMarshaler r marshalers);
  match e with
  | HTTPError h =>
      on_writer (writeResult (marshalError e marshaler) (status h) contentType)
  | _ =>
      on_writer (writeResult (marshalError e marshaler) StatusInternalServerError
                             contentType)
  end.

(** The closure [addResource] registers around every handler:
    [err := res.handle...; if err != nil { handleError(err, w, r, marshalers) }]. *)
Definition serve (h : handler unit) (r : Request) (marshalers : Marshalers)
  : handler unit :=
  fun w =>
    match h w with
    | Returns (Err e, w') => handleError e r marshalers w'
    | other => other
    end.

(** *** Resources and their handlers *)

Record resource := {
  resourceType : reflect_Type;
  source : CRUD Obj BS;
  name : string;
  marshalers : Marshalers
}.

(** [paginationLinks, err := pagination.getLinks(r, count, info)]. *)
Definition of_getLinks (x : outcome (Links * option error)) : handler Links :=
  fun w =>
    match x with
    | Returns (links, None) => Returns (Ok links, w)
    | Returns (_, Some e) => Returns (Err e, w)
    | Panics reason => Panics reason
    end.


(** [ps.ByName("id")] is the argument [id]. *)
Definition handleRead (res : resource) (r : Request) (id : string)
    (info : information) : handler unit :=
  obj ← backend_call (FindOne_call id) (FindOne (source res) id (buildRequest r));
  respondWith obj info StatusOK r (marshalers res).

Definition structType_of (t : reflect_Type) : reflect_Type :=
  match Kind t with
  | Ptr => Elem t
  | _ => t
  end.




Definition handleDelete (res : resource) (r : Request) (id : string) : handler unit :=
  backend_call (Delete_call id)
    (fun s => let '(e, s') := Delete (source res) id (buildRequest r) s in
              (of_error e, s'));;
  on_writer (WriteHeader StatusNoContent).

(** *** Registration *)

(** The handlers a route can be bound to; the relationship handlers carry
    the relation they were registered for. *)
Inductive Handle : Type :=
  | OptionsCollection
  | OptionsItem
  | Index
  | Read
  | ReadRelation (relation : Reference)
  | Linked (relation : Reference)
  | ReplaceRelation (relation : Reference)
  | AddToManyRelation (relation : Reference)
  | DeleteToManyRelation (relation : Reference)
  | CreateOne
  | DeleteOne
  | UpdateOne.

(** An entry of the router: [api.router.Handle(method, path, handle)].  The
    router itself ([httprouter]) is outside the package; the table is the
    list of registrations in the order they are made. *)
Record Route := { route_method : string; route_path : string; route_handle : Handle }.

Record API := {
  api_router : list Route;
  api_prefix : string;
  api_info : information;
  api_resources : list resource;
  api_marshalers : Marshalers
}.

Fixpoint TrimLeft_slash (s : string) : string :=
  match s with
  | String c rest => if Ascii.eqb c "/" then TrimLeft_slash rest else s
  | EmptyString => s
  end.

Fixpoint TrimRight_slash (s : string) : string :=
  match s with
  | String c rest =>
      let t := TrimRight_slash rest in
      if Ascii.eqb c "/" && String.eqb t "" then "" else String c t
  | EmptyString => s
  end.

(** [NewAPI]: the prefix gets one leading and one trailing slash. *)
Definition NewAPI (prefix : string) : API :=
  let prefixSlashes := TrimRight_slash (TrimLeft_slash prefix) in
  let prefixSlashes :=
    if (0 <? Z.of_nat (String.length prefixSlashes))
    then "/" +:+ prefixSlashes +:+ "/" else "/" in
  {| api_router := [];
     api_prefix := prefixSlashes;
     api_info := {| info_prefix := prefix; baseURL := "" |};
     api_resources := [];
     api_marshalers := DefaultContentMarshalers |}.

(** The routes of one relation, in the order of the loop body of
    [addResource]. *)
Definition relation_routes (base : string) (ptrEdits : bool) (relation : Reference)
  : list Route :=
  [ {| route_method := "GET";
       route_path := base +:+ "/:id/relationships/" +:+ ref_Name relation;
       route_handle := ReadRelation relation |};
    {| route_method := "GET";
       route_path := base +:+ "/:id/" +:+ ref_Name relation;
       route_handle := Linked relation |};
    {| route_method := "PATCH";
       route_path := base +:+ "/:id/relationships/" +:+ ref_Name relation;
       route_handle := ReplaceRelation relation |} ]
  ++ (if ptrEdits && String.eqb (ref_Name relation) (Pluralize (ref_Name relation))
      then
        (* generate additional routes to manipulate to-many relationships *)
        [ {| route_method := "POST";
             route_path := base +:+ "/:id/relationships/" +:+ ref_Name relation;
             route_handle := AddToManyRelation relation |};
          {| route_method := "DELETE";
             route_path := base +:+ "/:id/relationships/" +:+ ref_Name relation;
             route_handle := DeleteToManyRelation relation |} ]
      else []).

Definition addResource (api : API) (prototype : Prototype) (source : CRUD Obj BS)
    (marshalers : Marshalers) : outcome (API * resource) :=
  let resourceType := TypeOf prototype in
  match Kind resourceType with
  | OtherKind =>
      Panics "pass an empty resource struct or a struct pointer to AddResource!"
  | kind =>
      let name :=
        match kind with
        | Struct => Name resourceType
        | _ => Name (Elem resourceType)
        end in
      let name := Jsonify (Pluralize name) in
      let res :=
        {| resourceType := resourceType; name := name;
           source := source; marshalers := marshalers |} in
      let base := api_prefix api +:+ name in
      let routes :=
        [ {| route_method := "OPTIONS"; route_path := base;
             route_handle := OptionsCollection |};
          {| route_method := "OPTIONS"; route_path := base +:+ "/:id";
             route_handle := OptionsItem |};
          {| route_method := "GET"; route_path := base; route_handle := Index |};
          {| route_method := "GET"; route_path := base +:+ "/:id";
             route_handle := Read |} ]
        (* generate all routes for linked relations if there are relations *)
        ++ match GetReferences prototype with
           | Some relations =>
               flat_map (relation_routes base (ptr_EditToManyRelations prototype))
                        relations
           | None => []
           end
        ++ [ {| route_method := "POST"; route_path := base; route_handle := CreateOne |};
             {| route_method := "DELETE"; route_path := base +:+ "/:id";
                route_handle := DeleteOne |};
             {| route_method := "PATCH"; route_path := base +:+ "/:id";
                route_handle := UpdateOne |} ] in
      Returns
        ({| api_router := api_router api ++ routes;
            api_prefix := api_prefix api;
            api_info := api_info api;
            api_resources := api_resources api ++ [res];
            api_marshalers := api_marshalers api |}, res)
  end.

(** [AddResource]: registration with the API's own marshalers. *)
Definition AddResource (api : API) (prototype : Prototype) (source : CRUD Obj BS)
  : outcome API :=
  match addResource api prototype source (api_marshalers api) with
  | Returns (api', _) => Returns api'
  | Panics reason => Panics reason
  end.

End Engine.

(** ** What the specification asks of the links *)

(** The smallest number of pages of [s] entries that hold [count] entries. *)
Definition ceil_div (count s : Z) : Z := (count + s - 1) / s.

(** The link of a request with one pagination key rewritten: the base URL
    and the path, then the whole query string with the key set to [value]. *)
Definition link_to (info : information) (r : Request) (key value : string) : string :=
  GetBaseURL info +:+ Path (RequestURL r) +:+ "?"
  +:+ unescapedQuery (<[key := [value]]> (URL_Query (RequestURL r))).

Definition when (b : bool) (x : string) : option string :=
  if b then Some x else None.

(** Number/size mode, for current page [n], page size [s] and [count]
    entries: [first] and [prev] exactly when [n] is not 1, [next] and [last]
    exactly when [n] is not the last page. *)
Definition number_links (links : Links) (info : information) (r : Request)
    (n s count : Z) : Prop :=
  let totalPages := ceil_div count s in
  links !! "first" = when (negb (n =? 1)) (link_to info r "page[number]" "1")
  /\ links !! "prev"
     = when (negb (n =? 1)) (link_to info r "page[number]" (FormatUint (n - 1)))
  /\ links !! "next"
     = when (negb (n =? totalPages)) (link_to info r "page[number]" (FormatUint (n + 1)))
  /\ links !! "last"
     = when (negb (n =? totalPages)) (link_to info r "page[number]" (FormatUint totalPages)).

(** Offset/limit mode, for offset [o], limit [l] and [count] entries. *)
Definition offset_links (links : Links) (info : information) (r : Request)
    (o l count : Z) : Prop :=
  links !! "first" = when (negb (o =? 0)) (link_to info r "page[offset]" "0")
  /\ links !! "prev"
     = when (negb (o =? 0)) (link_to info r "page[offset]" (FormatUint (Z.max 0 (o - l))))
  /\ links !! "next"
     = when (o + l <? count) (link_to info r "page[offset]" (FormatUint (o + l)))
  /\ links !! "last"
     = when (o + l <? count) (link_to info r "page[offset]" (FormatUint (count - l))).




(** What a response on a writer that has not answered yet looks like: the
    status, and the body appended. *)
Definition answers (code : Z) (body : string) (before after : ResponseWriter) : Prop :=
  w_status before = None ->
  w_status after = Some code /\ w_body after = w_body before +:+ body.


(** ** Sample collaborators, backends and requests *)

Module Sample.

(** Objects are their titles. *)
Definition Obj : Type := string.

(** The store of a backend: the objects by id, in insertion order. *)
Definition Store : Type := list (string * Obj).

Fixpoint render (j : JSON) : string :=
  match j with
  | JNull => "null"
  | JBool b => if b then "true" else "false"
  | JNumber n => n
  | JString s => s
  | JArray items =>
      "[" +:+ (fix go (l : list JSON) : string :=
                 match l with
                 | [] => ""
                 | x :: t => render x +:+ ";" +:+ go t
                 end) items +:+ "]"
  | JObject fields =>
      "{" +:+ (fix go (l : list (string * JSON)) : string :=
                 match l with
                 | [] => ""
                 | (k, v) :: t => k +:+ ":" +:+ render v +:+ ";" +:+ go t
                 end) fields +:+ "}"
  end.

(** Request bodies of the samples, decoded by table. *)
Definition decode (body : string) : result Document :=
  if String.eqb body "one" then
    Ok [("data", JObject [("id", JString "1"); ("type", JString "posts");
                          ("title", JString "new title")])]
  else if String.eqb body "no id" then
    Ok [("data", JObject [("type", JString "posts"); ("title", JString "t")])]
  else if String.eqb body "no type" then
    Ok [("data", JObject [("id", JString "1")])]
  else if String.eqb body "no data" then Ok []
  else if String.eqb body "data string" then Ok [("data", JString "x")]
  else if String.eqb body "none" then Ok [("data", JArray [])]
  else if String.eqb body "two" then
    Ok [("data", JArray [JObject [("title", JString "a")];
                         JObject [("title", JString "b")]])]
  else Err (errorString "unexpected end of JSON input").

Definition title_of (j : JSON) : Obj :=
  match j with
  | JObject fields =>
      match lookup_key "title" fields with
      | Some (JString t) => t
      | _ => ""
      end
  | _ => ""
  end.

(** A codec that reads the [title] attribute: one object for a [data]
    object (merged onto the first object of the slice when there is one),
    one object per entry for a [data] array. *)
Definition unmarshal_into (ctx : Document) (t : reflect_Type) (objs : list Obj)
  : result (list Obj) :=
  match lookup_key "data" ctx with
  | Some (JObject fields) =>
      match objs with
      | [] => Ok [title_of (JObject fields)]
      | old :: rest => Ok ((old +:+ " -> " +:+ title_of (JObject fields)) :: rest)
      end
  | Some (JArray items) => Ok (objs ++ map title_of items)
  | _ => Err (errorString "invalid record, key data not present")
  end.

Definition ends_with_s (s : string) : bool :=
  match String.length s with
  | O => false
  | S k => String.eqb (String.substring k 1 s) "s"
  end.

Definition lower_first (s : string) : string :=
  match s with
  | String c rest =>
      let n := N_of_ascii c in
      if ((65 <=? n) && (n <=? 90))%N then String (ascii_of_N (n + 32)) rest else s
  | EmptyString => s
  end.

#[global] Instance externals : Externals Obj := {|
  MarshalWithURLs := fun obj info => Ok [("data", JString obj)];
  UnmarshalInto := unmarshal_into;
  NegotiateContentType := fun r offers default_ =>
    match Header r !! "Accept" with
    | Some (a :: _) => if bool_decide (a ∈ offers) then a else default_
    | _ => default_
    end;
  json_Marshal := fun j => Ok (render j);
  json_Unmarshal := decode;
  marshalError := fun e _ =>
    match e with
    | errorString s => s
    | NumError _ _ reason => reason
    | HTTPError h => msg h
    end;
  Pluralize := fun s => if ends_with_s s then s else s +:+ "s";
  Jsonify := lower_first
|}.

Definition lookup_id (id : string) (s : Store) : option Obj :=
  snd <$> List.find (fun kv => String.eqb kv.1 id) s.

Definition not_found : error := NewHTTPError None "not found" StatusNotFound.

(** The four mandatory operations over the store; [broken] makes [Create]
    and [Update] fail. *)
Definition crud (broken : bool)
    (findAll : option (APIRequest -> Store -> result Obj * Store))
    (paginated : option (APIRequest -> Store -> result (Obj * Z) * Store))
  : CRUD Obj Store :=
  {| FindOne := fun id _ s =>
       (match lookup_id id s with Some o => Ok o | None => Err not_found end, s);
     Create := fun obj _ s =>
       if broken then (Err (errorString "disk full"), s)
       else let id := FormatUint (Z.of_nat (length s) + 1) in
            (Ok id, s ++ [(id, obj +:+ " (stored)")]);
     Delete := fun id _ s =>
       (None, List.filter (fun kv => negb (String.eqb kv.1 id)) s);
     Update := fun obj _ s =>
       if broken then (Some (errorString "disk full"), s) else (None, s);
     FindAll := findAll;
     PaginatedFindAll := paginated |}.

Definition all_titles (s : Store) : Obj := String.concat "," (map snd s).

(** Only the mandatory four operations. *)
Definition crud_only : CRUD Obj Store := crud false None None.


Definition crud_all : CRUD Obj Store :=
  crud false (Some (fun _ s => (Ok (all_titles s), s)))
             (Some (fun _ s => (Ok (all_titles s, Z.of_nat (length s)), s))).



Definition posts (source : CRUD Obj Store) : resource :=
  {| resourceType := StructType "Post"; source := source; name := "posts";
     marshalers := DefaultContentMarshalers |}.

Definition request (method path : string) (query : list (string * string))
    (body : string) : Request :=
  {| Method := method;
     RequestURL := {| Path := path; RawQuery := query |};
     Header := ∅;
     Body := Ok body |}.

Definition info : information := {| info_prefix := "v1"; baseURL := "" |}.

Definition world (s : Store) : World (Obj := Obj) :=
  {| writer := new_writer; store := s; calls := [] |}.

Definition one_post : Store := [("1", "old title")].

(** A prototype with a to-one and a to-many relation, editable. *)
Definition Post : Prototype :=
  {| TypeOf := StructType "Post";
     GetReferences := Some [ {| ref_Type := "users"; ref_Name := "author" |};
                             {| ref_Type := "comments"; ref_Name := "comments" |} ];
     ptr_EditToManyRelations := true |}.

Definition page (n s : string) : paginationQueryParams :=
  {| number := n; size := s; offset := ""; limit := "" |}.

Definition window (o l : string) : paginationQueryParams :=
  {| number := ""; size := ""; offset := o; limit := l |}.

End Sample.

(** ** The rest of the package *)

Section Package.
Context {Obj BS : Type} `{!Externals Obj}.

(** [NewAPIWithBaseURL]: [NewAPI], then [api.info.baseURL = baseURL]. *)
Definition NewAPIWithBaseURL (prefix baseURL : string) : API (Obj := Obj) (BS := BS) :=
  let api := NewAPI prefix in
  {| api_router := api_router api;
     api_prefix := api_prefix api;
     api_info := {| info_prefix := info_prefix (api_info api); baseURL := baseURL |};
     api_resources := api_resources api;
     api_marshalers := api_marshalers api |}.

(** [NewAPIWithMarshalers]: panics on [len(marshalers) == 0]. *)
Definition NewAPIWithMarshalers (prefix baseURL : string) (marshalers : Marshalers)
  : outcome (API (Obj := Obj) (BS := BS)) :=
  if Z.of_nat (length (map_to_list marshalers)) =? 0
  then Panics "marshaler map must not be empty"
  else
    let api := NewAPIWithBaseURL prefix baseURL in
    Returns {| api_router := api_router api;
               api_prefix := api_prefix api;
               api_info := api_info api;
               api_resources := api_resources api;
               api_marshalers := marshalers |}.

(** The two [OPTIONS] closures of [addResource]: the [Allow] header, then
    the status 204. *)
Definition handleOptionsCollection : handler (Obj := Obj) (BS := BS) unit :=
  on_writer (Header_Set "Allow" "GET,POST,PATCH,OPTIONS");;
  on_writer (WriteHeader StatusNoContent).

Definition handleOptionsItem : handler (Obj := Obj) (BS := BS) unit :=
  on_writer (Header_Set "Allow" "GET,PATCH,DELETE,OPTIONS");;
  on_writer (WriteHeader StatusNoContent).

(** The loop of [handleLinked] over [api.resources]: the first resource with
    the name. *)
Fixpoint find_resource (resources : list (resource (Obj := Obj) (BS := BS)))
    (type_ : string) : option (resource (Obj := Obj) (BS := BS)) :=
  match resources with
  | [] => None
  | resource :: rest =>
      if String.eqb (name resource) type_ then Some resource
      else find_resource rest type_
  end.

End Package.

(** [string(http.StatusNotFound)]: the conversion of the integer 404 to a
    string is the UTF-8 encoding of the code point 404, the bytes 0xC6
    0x94. *)
Definition string_of_StatusNotFound : string :=
  String (ascii_of_nat 198) (String (ascii_of_nat 148) EmptyString).

(** The struct [Error] of [error.go] is not among the sources: the value
    [Error{Status: ..., Title: ..., Detail: ...}] that [handleLinked] hands
    to [respondWith] is a parameter, a function of the three fields the
    literal sets. *)
Class ErrorValues (Obj : Type) := {
  Error_value : string -> string -> string -> Obj
}.

Section Linked.
Context {Obj BS : Type} `{!Externals Obj} `{!ErrorValues Obj}.

(** [handleLinked]: the resource the relation points at is looked up by
    name among the registered ones; its backend is asked with the id of the
    owning object added to the query parameters, and the answer is encoded
    with the marshalers of the owning resource. *)
Definition handleLinked (api : API (Obj := Obj) (BS := BS))
    (res : resource (Obj := Obj) (BS := BS)) (r : Request) (id : string)
    (linked : Reference) (info : information) : handler unit :=
  match find_resource (api_resources api) (ref_Type linked) with
  | Some resource =>
      let request := buildRequest r in
      let request :=
        {| PlainRequest := PlainRequest request;
           QueryParams := <[name res +:+ "ID" := [id]]> (QueryParams request);
           APIHeader := APIHeader request |} in
      (* check for pagination, otherwise normal FindAll *)
      let pagination := newPaginationQueryParams r in
      if isValid pagination then
        match PaginatedFindAll (source resource) with
        | None =>
            fail (NewHTTPError None
                    "Resource does not implement the PaginatedFindAll interface"
                    StatusNotFound)
        | Some paginatedFindAll =>
            '(objs, count) ← backend_call PaginatedFindAll_call (paginatedFindAll request);
            paginationLinks ← of_getLinks (getLinks pagination r count info);
            respondWithPagination objs info StatusOK paginationLinks r (marshalers res)
        end
      else
        match FindAll (source resource) with
        | None =>
            fail (NewHTTPError None "Resource does not implement the FindAll interface"
                    StatusNotFound)
        | Some findAll =>
            obj ← backend_call FindAll_call (findAll request);
            respondWith obj info StatusOK r (marshalers res)
        end
  | None =>
      let err :=
        Error_value string_of_StatusNotFound "Not Found"
          ("No resource handler is registered to handle the linked resource "
           +:+ ref_Name linked) in
      respondWith err info StatusNotFound r (marshalers res)
  end.

End Linked.

(** The double quote of the messages of the relationship handlers. *)
Definition quote : string := String (ascii_of_nat 34) EmptyString.

(** What the relationship handlers ask of the objects and of
    [jsonapi]: the kind of the dynamic type of an object, the relationship
    decoder [jsonapi.UnmarshalRelationshipsData], which changes the object
    behind the pointer it gets and can fail, whether the pointer to an
    object implements [jsonapi.EditToManyRelations], and the two methods of
    that interface, whose results the handlers drop. *)
Class RelationEditing (Obj : Type) := {
  KindOf : Obj -> reflect_Kind;
  UnmarshalRelationshipsData : Obj -> string -> JSON -> Obj * option error;
  EditToManyRelations : Obj -> bool;
  AddToManyIDs : Obj -> string -> list string -> Obj;
  DeleteToManyIDs : Obj -> string -> list string -> Obj
}.

(** What [updateObj] refers to: for a struct resource the struct value that
    [ptr.Elem().Interface()] copied out of the new cell, for a pointer
    resource the pointer to the cell itself.  Objects are values here: what
    a struct shares with its copy through a slice, a map or a pointer field
    is not told apart from the struct. *)
Inductive UpdateRef (Obj : Type) : Type :=
  | Copied (value : Obj)
  | SameCell.
Arguments Copied {Obj} value.
Arguments SameCell {Obj}.

(** What [Update] gets to see when it is called with [updateObj] while the
    cell holds [cell]. *)
Definition seen_by_Update {Obj : Type} (updateObj : UpdateRef Obj) (cell : Obj) : Obj :=
  match updateObj with
  | Copied value => value
  | SameCell => cell
  end.

Section Relationships.
Context {Obj BS : Type} `{!Externals Obj} `{!RelationEditing Obj}.

(** [getRelationUpdateObjects]: a new cell is allocated and filled with a
    copy of the object; [editObj] is the pointer to the cell, the first
    component is what the cell holds.  An object that is neither a struct
    nor a pointer makes [reflect] panic. *)
Definition getRelationUpdateObjects (oldObj : Obj) : outcome (Obj * UpdateRef Obj) :=
  match KindOf oldObj with
  | Struct =>
      (* for struct resources, we pass a pointer to edit and a struct to Update *)
      Returns (oldObj, Copied oldObj)
  | Ptr =>
      (* for pointer resources, we pass a pointer both to edit and Update *)
      Returns (oldObj, SameCell)
  | OtherKind => Panics "reflect: Elem of invalid type"
  end.

Definition need_data : error :=
  errorString ("Invalid object. Need a " +:+ quote +:+ "data" +:+ quote +:+ " object").

Definition need_array : error :=
  errorString ("Data must be an array with " +:+ quote +:+ "id" +:+ quote +:+ " and "
               +:+ quote +:+ "type" +:+ quote
               +:+ " field to add new to-many relationships").

Definition call_Update (res : resource (Obj := Obj) (BS := BS)) (r : Request)
    (obj : Obj) : handler unit :=
  backend_call (Update_call obj)
    (fun s => let '(e, s') := Update (source res) obj (buildRequest r) s in
              (of_error e, s')).

Definition handleReplaceRelation (res : resource (Obj := Obj) (BS := BS)) (r : Request)
    (id : string) (relation : Reference) : handler unit :=
  oldObj ← backend_call (FindOne_call id) (FindOne (source res) id (buildRequest r));
  inc ← unmarshalRequest r (marshalers res);
  match lookup_key "data" inc with
  | None => fail need_data
  | Some data =>
      '(cell, updateObj) ← of_outcome (getRelationUpdateObjects oldObj);
      let '(cell, e) := UnmarshalRelationshipsData cell (ref_Name relation) data in
      match e with
      | Some e => fail e
      | None =>
          call_Update res r (seen_by_Update updateObj cell);;
          on_writer (WriteHeader StatusNoContent)
      end
  end.

(** The loop over the entries of [data]: every entry must be an object
    whose [id] is a string. *)
Fixpoint collect_ids (newRels : list JSON) (newIDs : list string) : result (list string) :=
  match newRels with
  | [] => Ok newIDs
  | newRel :: rest =>
      match newRel with
      | JObject casted =>
          match lookup_key "id" casted with
          | Some (JString newID) => collect_ids rest (newIDs ++ [newID])
          | _ => Err (errorString "no id field found inside data object")
          end
      | _ => Err (errorString "entry in data object invalid")
      end
  end.

(** The body shared by [handleAddToManyRelation] and
    [handleDeleteToManyRelation], which differ in the method they call on
    the target. *)
Definition handleEditToManyRelation (edit : Obj -> string -> list string -> Obj)
    (res : resource (Obj := Obj) (BS := BS)) (r : Request) (id : string)
    (relation : Reference) : handler unit :=
  oldObj ← backend_call (FindOne_call id) (FindOne (source res) id (buildRequest r));
  inc ← unmarshalRequest r (marshalers res);
  match lookup_key "data" inc with
  | None => fail need_data
  | Some data =>
      '(cell, updateObj) ← of_outcome (getRelationUpdateObjects oldObj);
      match data with
      | JArray newRels =>
          newIDs ← of_result (collect_ids newRels []);
          if EditToManyRelations cell then
            let cell := edit cell (ref_Name relation) newIDs in
            call_Update res r (seen_by_Update updateObj cell);;
            on_writer (WriteHeader StatusNoContent)
          else fail (errorString "target struct must implement jsonapi.EditToManyRelations")
      | _ => fail need_array
      end
  end.

Definition handleAddToManyRelation := handleEditToManyRelation AddToManyIDs.

Definition handleDeleteToManyRelation := handleEditToManyRelation DeleteToManyIDs.

End Relationships.

(** ** What the further properties speak of *)

(** The values a query string gives a key, in the order they are written. *)
Definition values_of (key : string) (pairs : list (string * string)) : list string :=
  map snd (filter (fun kv => kv.1 = key) pairs).

(** The first value a query string gives a key. *)
Definition first_value (key : string) (pairs : list (string * string)) : option string :=
  head (values_of key pairs).

Fixpoint count_commas (s : string) : nat :=
  match s with
  | EmptyString => O
  | String c rest => (if Ascii.eqb c "," then 1 else 0) + count_commas rest
  end.

(** The status [handleError] answers an error with. *)
Definition served_status (e : error) : Z :=
  match e with
  | HTTPError h => status h
  | _ => StatusInternalServerError
  end.

(** The methods of the routes registered on a path, in the order of
    registration. *)
Definition methods_at (path : string) (routes : list Route) : list string :=
  map route_method (List.filter (fun rt => String.eqb (route_path rt) path) routes).

(** The relations that get the routes of a to-many relationship. *)
Definition to_many `{!Externals Obj} (relations : list Reference) : list Reference :=
  List.filter (fun relation => String.eqb (ref_Name relation) (Pluralize (ref_Name relation)))
              relations.

(** The keys of a link map built by successive insertions. *)
Ltac link_keys H :=
  repeat (rewrite lookup_insert in H; case_decide; [subst; set_solver|]);
  rewrite lookup_empty in H; destruct H as [? H]; discriminate H.

(** The routes [addResource] registers for a resource at [base], the seven
    of every resource around those of its relations. *)
Definition resource_routes `{!Externals Obj} (base : string) (edits : bool)
    (relations : list Reference) : list Route :=
  [ {| route_method := "OPTIONS"; route_path := base; route_handle := OptionsCollection |};
    {| route_method := "OPTIONS"; route_path := base +:+ "/:id";
       route_handle := OptionsItem |};
    {| route_method := "GET"; route_path := base; route_handle := Index |};
    {| route_method := "GET"; route_path := base +:+ "/:id"; route_handle := Read |} ]
  ++ flat_map (relation_routes base edits) relations
  ++ [ {| route_method := "POST"; route_path := base; route_handle := CreateOne |};
       {| route_method := "DELETE"; route_path := base +:+ "/:id";
          route_handle := DeleteOne |};
       {| route_method := "PATCH"; route_path := base +:+ "/:id";
          route_handle := UpdateOne |} ].

(** The request [handleLinked] hands to the backend of the related
    resource: the request of [buildRequest] with the id of the owning object
    under the key [<name>ID]. *)
Definition linked_request {Obj BS : Type} (res : resource (Obj := Obj) (BS := BS))
    (r : Request) (id : string) : APIRequest :=
  {| PlainRequest := r;
     QueryParams := <[name res +:+ "ID" := [id]]> (QueryParams (buildRequest r));
     APIHeader := Header r |}.

(** An entry of a to-many payload that carries the id: an object whose [id]
    is a string. *)
Definition entry_has_id (entry : JSON) (id : string) : Prop :=
  exists fields, entry = JObject fields /\ lookup_key "id" fields = Some (JString id).

(** ** Samples for the relationship handlers *)

Module Related.

(** The [Error] value of the samples: its title and detail. *)
#[global] Instance error_values : ErrorValues Sample.Obj := {|
  Error_value := fun status_ title detail => title +:+ ": " +:+ detail
|}.

(** Objects written with a leading [&] are pointers, the others structs;
    an edit writes itself behind the object. *)
#[global] Instance relation_editing : RelationEditing Sample.Obj := {|
  KindOf := fun obj => if String.prefix "&" obj then Ptr else Struct;
  UnmarshalRelationshipsData := fun obj relation data =>
    match data with
    | JNull => (obj, Some (errorString "invalid relationship data"))
    | _ => (obj +:+ " " +:+ relation +:+ "=" +:+ Sample.render data, None)
    end;
  EditToManyRelations := fun obj => true;
  AddToManyIDs := fun obj relation ids =>
    obj +:+ " " +:+ relation +:+ "+" +:+ String.concat "," ids;
  DeleteToManyIDs := fun obj relation ids =>
    obj +:+ " " +:+ relation +:+ "-" +:+ String.concat "," ids
|}.

Definition comments : resource :=
  {| resourceType := StructType "Comment"; source := Sample.crud_all; name := "comments";
     marshalers := DefaultContentMarshalers |}.

(** An API with the posts and the comments registered. *)
Definition api : API :=
  {| api_router := [];
     api_prefix := "/v1/";
     api_info := Sample.info;
     api_resources := [Sample.posts Sample.crud_only; comments];
     api_marshalers := DefaultContentMarshalers |}.

Definition to_comments : Reference := {| ref_Type := "comments"; ref_Name := "comments" |}.

Definition to_author : Reference := {| ref_Type := "users"; ref_Name := "author" |}.

(** A store whose post is a pointer. *)
Definition pointer_post : Sample.Store := [("1", "&post")].

(** A body of two entries with ids, decoded by a marshaler of its own. *)
Definition two_ids : ContentMarshaler :=
  {| Marshal := fun j => Ok (Sample.render j);
     Unmarshal := fun body =>
       Ok [("data", JArray [JObject [("id", JString "7"); ("type", JString "comments")];
                            JObject [("id", JString "9"); ("type", JString "comments")]])] |}.

Definition posts_two_ids : resource :=
  {| resourceType := StructType "Post"; source := Sample.crud_only; name := "posts";
     marshalers := {[ jsonapi_mime := Some two_ids ]} |}.

(** A [POST] on the comments of post 1 that announces its content type. *)
Definition add_comments : Request :=
  {| Method := "POST";
     RequestURL := {| Path := "/v1/posts/1/relationships/comments"; RawQuery := [] |};
     Header := {[ "Content-Type" := [jsonapi_mime] ]};
     Body := Ok "" |}.

End Related.

(** ** Proof steps *)

(** Lookups in a link map built by successive insertions. *)
Ltac links_lookup :=
  repeat first
    [ rewrite lookup_insert_eq
    | rewrite lookup_insert_ne by discriminate
    | rewrite lookup_empty ].

(** One step of a handler: the monad's operations unfolded. *)
Ltac run_handler :=
  unfold mbind, mret, handler_bind, handler_ret, backend_call, of_result, of_outcome,
    of_getLinks, on_writer, fail, of_error;
  cbn beta iota zeta.

(** * Properties *)

(** ** Parsing and arithmetic *)

Lemma is_digit_value c : is_digit c = true -> 0 <= digit_value c <= 9.
Proof.
  unfold is_digit, digit_value. intros H.
  apply andb_true_iff in H as [H1 H2].
  apply Z.leb_le in H1. apply Z.leb_le in H2. lia.
Qed.

Lemma parse_digits_range orig s n v :
  0 <= n <= maxUint64 -> parse_digits orig s n = Ok v -> 0 <= v <= maxUint64.
Proof.
  revert n. induction s as [|c rest IH]; intros n Hn; simpl.
  - intros [= <-]. exact Hn.
  - destruct (is_digit c) eqn:Hd; [|discriminate].
    destruct (cutoff <=? n); [discriminate|].
    destruct (maxUint64 <? n * 10 + digit_value c) eqn:Hmax; [discriminate|].
    apply Z.ltb_ge in Hmax. apply IH.
    pose proof (is_digit_value c Hd). lia.
Qed.

Lemma ParseUint_range s v : ParseUint s = Ok v -> 0 <= v <= maxUint64.
Proof.
  destruct s as [|c rest]; [discriminate|].
  apply parse_digits_range. unfold maxUint64. lia.
Qed.

Lemma ParseUint_nonempty s v : ParseUint s = Ok v -> s <> "".
Proof. destruct s; [discriminate|discriminate]. Qed.

Lemma eqb_empty_false s : s <> "" -> String.eqb s "" = false.
Proof. intros H. apply String.eqb_neq. exact H. Qed.

Lemma wrap64_small z : 0 <= z <= maxUint64 -> wrap64 z = z.
Proof. unfold wrap64, maxUint64. intros H. apply Z.mod_small. lia. Qed.

(** [ceil_div] is the ceiling of the quotient: the least number of pages
    that hold [count] entries. *)
Lemma ceil_div_spec count s :
  0 <= count -> 1 <= s ->
  count <= ceil_div count s * s /\ (ceil_div count s - 1) * s < count + 0
  /\ 0 <= ceil_div count s.
Proof.
  intros Hc Hs. unfold ceil_div.
  pose proof (Z.div_mod (count + s - 1) s ltac:(lia)) as Hdm.
  pose proof (Z.mod_pos_bound (count + s - 1) s ltac:(lia)) as Hb.
  pose proof (Z.div_pos (count + s - 1) s ltac:(lia) ltac:(lia)).
  nia.
Qed.

(** The page count as [getLinks] computes it, quotient plus one when there is
    a remainder, is [ceil_div]. *)
Lemma totalPages_ceil_div count s :
  0 <= count -> 1 <= s ->
  (if negb (count mod s =? 0) then count / s + 1 else count / s) = ceil_div count s.
Proof.
  intros Hc Hs. unfold ceil_div.
  pose proof (Z.div_mod count s ltac:(lia)) as Hdm.
  pose proof (Z.mod_pos_bound count s ltac:(lia)) as Hb.
  destruct (count mod s =? 0) eqn:Hr; cbn [negb].
  - apply Z.eqb_eq in Hr.
    apply Z.div_unique with (r := s - 1); lia.
  - apply Z.eqb_neq in Hr.
    apply Z.div_unique with (r := count mod s - 1); lia.
Qed.

Lemma totalPages_fits count s :
  0 <= count <= maxUint64 -> 1 <= s -> count mod s <> 0 ->
  0 <= count / s + 1 <= maxUint64.
Proof.
  intros Hc Hs Hr.
  pose proof (Z.div_mod count s ltac:(lia)) as Hdm.
  pose proof (Z.mod_pos_bound count s ltac:(lia)) as Hb.
  pose proof (Z.div_pos count s ltac:(lia) ltac:(lia)).
  assert (s <> 1) by (intros ->; rewrite Z.mod_1_r in Hr; lia).
  nia.
Qed.

(** Every key of a parsed query string has at least one value, so the
    [values[0]] of [buildRequest] is always there. *)
Lemma URL_Query_values_nonempty u key values :
  URL_Query u !! key = Some values -> values <> [].
Proof.
  unfold URL_Query.
  assert (forall (pairs : list (string * string)) (m : Values),
             (forall k vs, m !! k = Some vs -> vs <> []) ->
             forall k vs,
               foldl (fun (m : Values) kv => <[kv.1 := default [] (m !! kv.1) ++ [kv.2]]> m)
                     m pairs !! k = Some vs -> vs <> []) as Hgen.
  { induction pairs as [|kv pairs IH]; intros m Hm k vs; simpl.
    - apply Hm.
    - apply IH. intros k' vs'. rewrite lookup_insert.
      case_decide.
      + intros [= <-]. destruct (default [] (m !! kv.1)); discriminate.
      + apply Hm. }
  apply Hgen. intros k vs. rewrite lookup_empty. discriminate.
Qed.

(** ** Pagination shapes *)

(** C5.  [isValid] holds exactly for the two complete shapes, number and
    size without offset and limit, or offset and limit without number and
    size; it is false for [number] alone and when all four parameters are
    set. *)
Theorem isValid_exactly_one_complete_shape :
  (forall p,
      isValid p = true <->
      (number p <> "" /\ size p <> "" /\ offset p = "" /\ limit p = "")
      \/ (number p = "" /\ size p = "" /\ offset p <> "" /\ limit p <> ""))
  /\ (forall n, isValid {| number := n; size := ""; offset := ""; limit := "" |} = false)
  /\ (forall a n b s c o d l,
         isValid {| number := String a n; size := String b s;
                    offset := String c o; limit := String d l |} = false).
Proof.
  split; [|split].
  - intros [n s o l]. unfold isValid. cbn [number size offset limit].
    destruct n, s, o, l; cbn; split; intros H;
      solve [ discriminate H | reflexivity
            | left; repeat split; congruence
            | right; repeat split; congruence
            | destruct H as [(H1 & H2 & H3 & H4) | (H1 & H2 & H3 & H4)]; congruence ].
  - intros n. unfold isValid. cbn [number size offset limit].
    destruct n; reflexivity.
  - intros. reflexivity.
Qed.

(** ** Division by the page size *)

Lemma getLinks_number_branch p r count info n :
  ParseUint (number p) = Ok n ->
  getLinks p r count info =
  let params := URL_Query (RequestURL r) in
  let requestURL :=
    (if negb (String.eqb (GetBaseURL info) "") then GetBaseURL info else "")
    +:+ Path (RequestURL r) in
  let '(params, result) :=
    if negb (String.eqb (number p) "1") then
      (Values_Set (Values_Set params "page[number]" "1") "page[number]"
                  (FormatUint (wrap64 (n - 1))),
       <["prev" := link requestURL
                     (Values_Set (Values_Set params "page[number]" "1") "page[number]"
                                 (FormatUint (wrap64 (n - 1))))]>
         (<["first" := link requestURL (Values_Set params "page[number]" "1")]>
            (∅ : Links)))
    else (params, ∅) in
  match ParseUint (size p) with
  | Err e => Returns (result, Some e)
  | Ok size_ =>
      if size_ =? 0 then Panics divide_by_zero
      else
        let totalPages := count / size_ in
        let totalPages :=
          if negb (count mod size_ =? 0) then wrap64 (totalPages + 1) else totalPages in
        if negb (n =? totalPages) then
          Returns
            (<["last" := link requestURL
                           (Values_Set
                              (Values_Set params "page[number]"
                                          (FormatUint (wrap64 (n + 1))))
                              "page[number]" (FormatUint totalPages))]>
               (<["next" := link requestURL
                              (Values_Set params "page[number]"
                                          (FormatUint (wrap64 (n + 1))))]> result), None)
        else Returns (result, None)
  end.
Proof.
  intros Hn. unfold getLinks.
  rewrite (eqb_empty_false _ (ParseUint_nonempty _ _ Hn)). cbn [negb].
  rewrite Hn. reflexivity.
Qed.

(** C10.  For a number/size request that [isValid] accepts and whose two
    parameters parse, [getLinks] divides the count by the parsed size
    without a guard: it returns exactly when the size is at least 1 and
    panics with a division by zero when it is 0; [page[size]=0] is accepted
    by [isValid] and reaches that division. *)
Theorem getLinks_divides_by_unguarded_size p r count info n s :
  isValid p = true -> number p <> "" ->
  ParseUint (number p) = Ok n -> ParseUint (size p) = Ok s ->
  (s = 0 -> getLinks p r count info = Panics divide_by_zero)
  /\ (1 <= s <-> exists res, getLinks p r count info = Returns res)
  /\ isValid {| number := number p; size := "0"; offset := ""; limit := "" |} = true
  /\ getLinks {| number := number p; size := "0"; offset := ""; limit := "" |}
              r count info = Panics divide_by_zero.
Proof.
  intros Hvalid Hne Hn Hs.
  pose proof (ParseUint_range _ _ Hs) as Hrange.
  rewrite (getLinks_number_branch p r count info n Hn).
  rewrite (getLinks_number_branch
             {| number := number p; size := "0"; offset := ""; limit := "" |}
             r count info n Hn).
  cbn zeta. rewrite Hs. cbn [size number].
  change (ParseUint "0") with (@Ok Z 0). cbn [Z.eqb].
  repeat split.
  - intros ->. destruct (negb (String.eqb (number p) "1")); reflexivity.
  - intros H1. destruct (negb (String.eqb (number p) "1"));
      (destruct (s =? 0) eqn:Hz; [apply Z.eqb_eq in Hz; lia|]);
      match goal with |- context [if ?c then _ else _] => destruct c end; eauto.
  - intros [res Hres]. destruct (negb (String.eqb (number p) "1"));
      (destruct (s =? 0) eqn:Hz; [discriminate Hres | apply Z.eqb_neq in Hz; lia]).
  - unfold isValid. cbn [number size offset limit].
    rewrite (eqb_empty_false _ Hne). reflexivity.
  - destruct (negb (String.eqb (number p) "1")); reflexivity.
Qed.

Lemma getLinks_divides_by_unguarded_size_witness :
  getLinks (Sample.page "3" "0")
           (Sample.request "GET" "/v1/posts" [("page[number]", "3"); ("page[size]", "0")] "")
           25 Sample.info
  = Panics divide_by_zero.
Proof.
  apply (getLinks_divides_by_unguarded_size
           (Sample.page "3" "0")
           (Sample.request "GET" "/v1/posts" [("page[number]", "3"); ("page[size]", "0")] "")
           25 Sample.info 3 0);
    [reflexivity | discriminate | reflexivity | reflexivity].
Defined.

(** ** Links *)

Lemma append_assoc (a b c : string) : (a +:+ b) +:+ c = a +:+ (b +:+ c).
Proof.
  induction a as [|x a IH]; [reflexivity|].
  change (String x ((a +:+ b) +:+ c) = String x (a +:+ (b +:+ c))).
  f_equal. exact IH.
Qed.

Lemma requestURL_prefix info :
  (if negb (String.eqb (GetBaseURL info) "") then GetBaseURL info else "")
  = GetBaseURL info.
Proof.
  destruct (String.eqb (GetBaseURL info) "") eqn:H; [|reflexivity].
  apply String.eqb_eq in H. rewrite H. reflexivity.
Qed.

Lemma link_is_link_to info r key value :
  link ((if negb (String.eqb (GetBaseURL info) "") then GetBaseURL info else "")
        +:+ Path (RequestURL r))
       (Values_Set (URL_Query (RequestURL r)) key value)
  = link_to info r key value.
Proof.
  unfold link, link_to, Values_Set. rewrite requestURL_prefix.
  apply append_assoc.
Qed.

Lemma Values_Set_again (v : Values) key a b :
  Values_Set (Values_Set v key a) key b = Values_Set v key b.
Proof. unfold Values_Set. apply insert_insert_eq. Qed.

(** C3 (as amended).  In number/size mode, for a page number that parses to
    [n] with [1 <= n < 2^64 - 1] and is written ["1"] when [n] is 1, a size
    that parses to [s >= 1] and a count within [uint64]: [getLinks] returns
    without error, [first] and [prev] are present exactly when [n] is not 1
    and point at pages 1 and [n - 1], and [next] and [last] are present
    exactly when [n] is not [ceil_div count s] and point at page [n + 1] and
    at that last page. *)
Theorem getLinks_number_size p r count info n s :
  ParseUint (number p) = Ok n -> ParseUint (size p) = Ok s ->
  (n = 1 -> number p = "1") ->
  1 <= n < maxUint64 -> 1 <= s -> 0 <= count <= maxUint64 ->
  exists links,
    getLinks p r count info = Returns (links, None)
    /\ number_links links info r n s count.
Proof.
  intros Hn Hs Hone Hnr Hsr Hc.
  rewrite (getLinks_number_branch p r count info n Hn). cbn zeta.
  rewrite Hs.
  destruct (s =? 0) eqn:Hz; [apply Z.eqb_eq in Hz; lia|].
  assert ((if negb (count mod s =? 0) then wrap64 (count / s + 1) else count / s)
          = ceil_div count s) as ->.
  { rewrite <- totalPages_ceil_div by lia.
    destruct (count mod s =? 0) eqn:Hr; cbn [negb]; [reflexivity|].
    apply Z.eqb_neq in Hr. apply wrap64_small. apply totalPages_fits; lia. }
  rewrite !wrap64_small by lia.
  assert (String.eqb (number p) "1" = (n =? 1)) as ->.
  { destruct (String.eqb (number p) "1") eqn:H1.
    - apply String.eqb_eq in H1. rewrite H1 in Hn.
      injection Hn as <-. reflexivity.
    - apply String.eqb_neq in H1. symmetry. apply Z.eqb_neq. auto. }
  unfold number_links.
  destruct (n =? 1); destruct (n =? ceil_div count s); cbn [negb when];
    eexists; (split; [reflexivity|]);
    rewrite ?Values_Set_again, ?link_is_link_to;
    repeat split; links_lookup; reflexivity.
Qed.

Lemma getLinks_number_size_witness :
  exists links,
    getLinks (Sample.page "2" "10")
      (Sample.request "GET" "/v1/posts" [("page[number]", "2"); ("page[size]", "10")] "")
      25 Sample.info = Returns (links, None)
    /\ number_links links Sample.info
         (Sample.request "GET" "/v1/posts" [("page[number]", "2"); ("page[size]", "10")] "")
         2 10 25.
Proof.
  apply (getLinks_number_size (Sample.page "2" "10")
           (Sample.request "GET" "/v1/posts" [("page[number]", "2"); ("page[size]", "10")] "")
           25 Sample.info 2 10);
    [reflexivity | reflexivity | discriminate | unfold maxUint64; lia | lia
    | unfold maxUint64; lia].
Defined.

(** C3 (as stated) fails on [page[number]=01]: the page number parses to 1,
    and [first] and [prev] are emitted all the same, because the gate
    compares the text of the parameter with ["1"]. *)
Lemma getLinks_number_size_leading_zero :
  let r := Sample.request "GET" "/v1/posts"
             [("page[number]", "01"); ("page[size]", "10")] "" in
  let p := newPaginationQueryParams r in
  isValid p = true
  /\ ParseUint (number p) = Ok 1
  /\ ParseUint (size p) = Ok 10
  /\ exists links,
       getLinks p r 25 Sample.info = Returns (links, None)
       /\ links !! "first" = Some "/v1/posts?page[number]=1&page[size]=10"
       /\ links !! "prev" = Some "/v1/posts?page[number]=0&page[size]=10"
       /\ ~ number_links links Sample.info r 1 10 25.
Proof.
  cbv zeta. split; [reflexivity|]. split; [reflexivity|]. split; [reflexivity|].
  eexists. split; [vm_compute; reflexivity|].
  split; [vm_compute; reflexivity|]. split; [vm_compute; reflexivity|].
  intros [H _]. vm_compute in H. discriminate H.
Qed.

Lemma getLinks_offset_branch p r count info o l :
  number p = "" ->
  ParseUint (offset p) = Ok o -> ParseUint (limit p) = Ok l ->
  getLinks p r count info =
  let params := URL_Query (RequestURL r) in
  let requestURL :=
    (if negb (String.eqb (GetBaseURL info) "") then GetBaseURL info else "")
    +:+ Path (RequestURL r) in
  let prevOffset := if o <? l then 0 else wrap64 (o - l) in
  let '(params, result) :=
    if negb (String.eqb (offset p) "0") then
      (Values_Set (Values_Set params "page[offset]" "0") "page[offset]"
                  (FormatUint prevOffset),
       <["prev" := link requestURL
                     (Values_Set (Values_Set params "page[offset]" "0") "page[offset]"
                                 (FormatUint prevOffset))]>
         (<["first" := link requestURL (Values_Set params "page[offset]" "0")]>
            (∅ : Links)))
    else (params, ∅) in
  if wrap64 (o + l) <? count then
    Returns
      (<["last" := link requestURL
                     (Values_Set
                        (Values_Set params "page[offset]" (FormatUint (wrap64 (o + l))))
                        "page[offset]" (FormatUint (wrap64 (count - l))))]>
         (<["next" := link requestURL
                        (Values_Set params "page[offset]"
                                    (FormatUint (wrap64 (o + l))))]> result), None)
  else Returns (result, None).
Proof.
  intros Hnum Ho Hl. unfold getLinks. rewrite Hnum. cbn [String.eqb negb].
  rewrite Ho, Hl. reflexivity.
Qed.

(** C4 (as amended).  In offset/limit mode, for an offset that parses to
    [o] and is written ["0"] when [o] is 0, a limit that parses to [l] with
    [o + l] within [uint64], and a count within [uint64]: [getLinks] returns
    without error, [first] and [prev] are present exactly when [o] is not 0
    and point at offsets 0 and [max 0 (o - l)], and [next] and [last] are
    present exactly when [o + l < count] and point at offsets [o + l] and
    [count - l]. *)
Theorem getLinks_offset_limit p r count info o l :
  number p = "" ->
  ParseUint (offset p) = Ok o -> ParseUint (limit p) = Ok l ->
  (o = 0 -> offset p = "0") ->
  o + l <= maxUint64 -> 0 <= count <= maxUint64 ->
  exists links,
    getLinks p r count info = Returns (links, None)
    /\ offset_links links info r o l count.
Proof.
  intros Hnum Ho Hl Hzero Hsum Hc.
  pose proof (ParseUint_range _ _ Ho) as Hor.
  pose proof (ParseUint_range _ _ Hl) as Hlr.
  rewrite (getLinks_offset_branch p r count info o l Hnum Ho Hl). cbn zeta.
  rewrite (wrap64_small (o + l)) by lia.
  assert ((if o <? l then 0 else wrap64 (o - l)) = Z.max 0 (o - l)) as ->.
  { destruct (o <? l) eqn:Hlt.
    - apply Z.ltb_lt in Hlt. lia.
    - apply Z.ltb_ge in Hlt. rewrite wrap64_small by lia. lia. }
  assert (String.eqb (offset p) "0" = (o =? 0)) as ->.
  { destruct (String.eqb (offset p) "0") eqn:H0.
    - apply String.eqb_eq in H0. rewrite H0 in Ho.
      injection Ho as <-. reflexivity.
    - apply String.eqb_neq in H0. symmetry. apply Z.eqb_neq. auto. }
  unfold offset_links.
  destruct (o =? 0); destruct (o + l <? count) eqn:Hlt; cbn [negb when];
    try (apply Z.ltb_lt in Hlt; rewrite (wrap64_small (count - l)) by lia);
    eexists; (split; [reflexivity|]);
    rewrite ?Values_Set_again, ?link_is_link_to;
    repeat split; links_lookup; reflexivity.
Qed.

Lemma getLinks_offset_limit_witness :
  exists links,
    getLinks (Sample.window "10" "10")
      (Sample.request "GET" "/v1/posts" [("page[offset]", "10"); ("page[limit]", "10")] "")
      25 Sample.info = Returns (links, None)
    /\ offset_links links Sample.info
         (Sample.request "GET" "/v1/posts" [("page[offset]", "10"); ("page[limit]", "10")] "")
         10 10 25.
Proof.
  apply (getLinks_offset_limit (Sample.window "10" "10")
           (Sample.request "GET" "/v1/posts" [("page[offset]", "10"); ("page[limit]", "10")] "")
           25 Sample.info 10 10);
    [reflexivity | reflexivity | reflexivity | discriminate | unfold maxUint64; lia
    | unfold maxUint64; lia].
Defined.

(** C4 (as stated) fails on [page[offset]=00]: the offset parses to 0, and
    [first] and [prev] are emitted all the same, because the gate compares
    the text of the parameter with ["0"]. *)
Lemma getLinks_offset_limit_leading_zero :
  let r := Sample.request "GET" "/v1/posts"
             [("page[offset]", "00"); ("page[limit]", "10")] "" in
  let p := newPaginationQueryParams r in
  isValid p = true
  /\ ParseUint (offset p) = Ok 0
  /\ ParseUint (limit p) = Ok 10
  /\ exists links,
       getLinks p r 25 Sample.info = Returns (links, None)
       /\ links !! "first" = Some "/v1/posts?page[limit]=10&page[offset]=0"
       /\ links !! "prev" = Some "/v1/posts?page[limit]=10&page[offset]=0"
       /\ ~ offset_links links Sample.info r 0 10 25.
Proof.
  cbv zeta. split; [reflexivity|]. split; [reflexivity|]. split; [reflexivity|].
  eexists. split; [vm_compute; reflexivity|].
  split; [vm_compute; reflexivity|]. split; [vm_compute; reflexivity|].
  intros [H _]. vm_compute in H. discriminate H.
Qed.

(** ** The error model and its test *)


(** The test of [error_test.go] passes on the embedding. *)
Lemma can_create_array_tree_passes :
  can_create_array_tree NewHTTPError AddHTTPError = true.
Proof. vm_compute. reflexivity. Qed.

(** Under an append that adds the child's count, each round of the test's
    loop doubles the count. *)
Lemma add_to_itself_doubles add n e :
  (forall P C, errorsCount (add P C) = errorsCount P + errorsCount C) ->
  errorsCount (add_to_itself add n e) = 2 ^ Z.of_nat n * errorsCount e.
Proof.
  intros Hadd. revert e. induction n as [|n IH]; intros e; cbn [add_to_itself].
  - change (2 ^ Z.of_nat 0) with 1. lia.
  - rewrite IH, Hadd. rewrite Nat2Z.inj_succ, Z.pow_succ_r by lia. lia.
Qed.

(** No constructor and append with the append law of the spec can pass the
    test of [error_test.go]: twenty rounds leave the count at [2^20] times
    the count of a new error, which is never 20. *)
Lemma append_law_fails_error_test new add :
  (forall P C, errorsCount (add P C) = errorsCount P + errorsCount C) ->
  can_create_array_tree new add = false.
Proof.
  intros Hadd. unfold can_create_array_tree.
  destruct (new (Some "hi") "hi" 0) as [| |e]; [reflexivity | reflexivity |].
  cbv zeta. rewrite (add_to_itself_doubles add 20 e Hadd).
  change (2 ^ Z.of_nat 20) with 1048576.
  destruct (1048576 * errorsCount e =? 20) eqn:H; [|reflexivity].
  apply Z.eqb_eq in H. lia.
Qed.

(** The model in the spec's words does keep the count at one plus the counts
    of the children. *)
Lemma built_spec_count e : built_spec e -> errorsCount e = 1 + children_count e.
Proof.
  induction 1 as [err0 msg0 status0 e Hnew | e child He IHe Hc IHc].
  - injection Hnew as <-. reflexivity.
  - unfold children_count in *. cbn [AddHTTPError_spec errorsCount errors].
    rewrite foldr_app. cbn [foldr].
    assert (forall (l : list httpError) (a : Z),
               foldr (fun c acc => errorsCount c + acc) a l
               = foldr (fun c acc => errorsCount c + acc) 0 l + a) as Hshift.
    { induction l as [|x l IHl]; intros a; cbn [foldr]; [lia|].
      rewrite IHl. lia. }
    rewrite Hshift. lia.
Qed.





(** ** Content negotiation *)

Section Negotiation.
Context {Obj : Type} `{!Externals Obj}.

(** The offers handed to the negotiation are the configured content
    types. *)
Lemma offers_are_configured (marshalers : Marshalers) contentType :
  contentType ∈ (map_to_list marshalers).*1 <-> is_Some (marshalers !! contentType).
Proof.
  rewrite list_elem_of_fmap. split.
  - intros [[k v] [-> Hin]]. apply elem_of_map_to_list in Hin. eauto.
  - intros [v Hv]. exists (contentType, v). split; [reflexivity|].
    apply elem_of_map_to_list. exact Hv.
Qed.


End Negotiation.


(** ** Registration *)

Section Registration.
Context {Obj BS : Type} `{!Externals Obj}.



End Registration.



(** ** Dispatch *)

Lemma append_empty_r (a : string) : a +:+ "" = a.
Proof.
  induction a as [|x a IH]; [reflexivity|].
  change (String x (a +:+ "") = String x a). f_equal. exact IH.
Qed.

Lemma writeResult_answers body code contentType w :
  answers code body w (writeResult body code contentType w).
Proof.
  intros Hfresh. unfold writeResult, Write, WriteHeader, Header_Set.
  cbn [w_status w_body w_header]. rewrite Hfresh. cbn [w_status w_body].
  split; reflexivity.
Qed.

Lemma writeResult_header body code contentType w :
  w_header (writeResult body code contentType w)
  = <["Content-Type" := [contentType]]> (w_header w).
Proof.
  unfold writeResult, Write, WriteHeader, Header_Set. cbn [w_status].
  destruct (w_status w); reflexivity.
Qed.

Lemma WriteHeader_answers code w : answers code "" w (WriteHeader code w).
Proof.
  intros Hfresh. unfold WriteHeader. rewrite Hfresh. cbn [w_status w_body].
  rewrite append_empty_r. split; reflexivity.
Qed.

Section Dispatch.
Context {Obj BS : Type} `{!Externals Obj}.

Implicit Types (res : resource (Obj := Obj) (BS := BS)) (w : World (Obj := Obj) (BS := BS)).


Lemma marshalResponse_ok resp code r marshalers w marshaler contentType body :
  selectContentMarshaler r marshalers = Returns (marshaler, contentType) ->
  Marshal marshaler resp = Ok body ->
  marshalResponse resp code r marshalers w
  = Returns (Ok tt, {| writer := writeResult body code contentType (writer w);
                       store := store w; calls := calls w |}).
Proof.
  intros Hsel Hm. unfold marshalResponse. run_handler.
  rewrite Hsel, Hm. reflexivity.
Qed.

Lemma marshalResponse_calls resp code r marshalers w x w' :
  marshalResponse resp code r marshalers w = Returns (x, w') -> calls w' = calls w.
Proof.
  unfold marshalResponse. run_handler.
  destruct (selectContentMarshaler r marshalers) as [[m ct]|]; [|discriminate].
  destruct (Marshal m resp); intros [= <- <-]; reflexivity.
Qed.


End Dispatch.



Section Mutation.
Context {Obj BS : Type} `{!Externals Obj}.

Implicit Types (res : resource (Obj := Obj) (BS := BS)) (w : World (Obj := Obj) (BS := BS)).

Lemma unmarshalRequest_ok r marshalers w data marshaler contentType ctx :
  Body r = Ok data ->
  selectContentMarshaler r marshalers = Returns (marshaler, contentType) ->
  Unmarshal marshaler data = Ok ctx ->
  unmarshalRequest r marshalers w = Returns (Ok ctx, w).
Proof.
  intros Hbody Hsel Hun. unfold unmarshalRequest. run_handler.
  rewrite Hbody, Hsel, Hun. reflexivity.
Qed.



End Mutation.





(** * Further properties of the package *)

(** ** Links: pairs, parse errors, the empty collection *)

(** X1.  Whatever [getLinks] returns, with or without an error: [first] and
    [prev] are there together or not at all, so are [next] and [last], and
    the map has no other key. *)
Theorem getLinks_links_in_pairs p r count info links e :
  getLinks p r count info = Returns (links, e) ->
  (is_Some (links !! "first") <-> is_Some (links !! "prev"))
  /\ (is_Some (links !! "next") <-> is_Some (links !! "last"))
  /\ (forall key, is_Some (links !! key) -> key ∈ ["first"; "prev"; "next"; "last"]).
Proof.
  unfold getLinks.
  destruct (negb (String.eqb (number p) "")).
  - destruct (ParseUint (number p)) as [n|e1].
    + destruct (negb (String.eqb (number p) "1"));
        (destruct (ParseUint (size p)) as [s|e2];
         [destruct (s =? 0); [discriminate|];
          match goal with |- context [if negb (n =? ?t) then _ else _] =>
            destruct (negb (n =? t)) end|]);
        intros [= <- <-];
        (split; [links_lookup; split; intros [? ?]; solve [eauto | discriminate]|]);
        (split; [links_lookup; split; intros [? ?]; solve [eauto | discriminate]|]);
        intros key Hkey; link_keys Hkey.
    + intros [= <- <-].
      (split; [links_lookup; split; intros [? ?]; discriminate|]).
      (split; [links_lookup; split; intros [? ?]; discriminate|]).
      intros key Hkey; link_keys Hkey.
  - destruct (ParseUint (offset p)) as [o|e1].
    + destruct (ParseUint (limit p)) as [l|e2].
      * destruct (negb (String.eqb (offset p) "0"));
          destruct (wrap64 (o + l) <? count);
          intros [= <- <-];
          (split; [links_lookup; split; intros [? ?]; solve [eauto | discriminate]|]);
          (split; [links_lookup; split; intros [? ?]; solve [eauto | discriminate]|]);
          intros key Hkey; link_keys Hkey.
      * intros [= <- <-].
        (split; [links_lookup; split; intros [? ?]; discriminate|]).
        (split; [links_lookup; split; intros [? ?]; discriminate|]).
        intros key Hkey; link_keys Hkey.
    + intros [= <- <-].
      (split; [links_lookup; split; intros [? ?]; discriminate|]).
      (split; [links_lookup; split; intros [? ?]; discriminate|]).
      intros key Hkey; link_keys Hkey.
Qed.

Lemma getLinks_links_in_pairs_witness :
  let links : Links :=
    <["last" := "/v1/posts?page[number]=3&page[size]=10"]>
      (<["next" := "/v1/posts?page[number]=3&page[size]=10"]>
         (<["prev" := "/v1/posts?page[number]=1&page[size]=10"]>
            (<["first" := "/v1/posts?page[number]=1&page[size]=10"]> ∅))) in
  (is_Some (links !! "first") <-> is_Some (links !! "prev"))
  /\ (is_Some (links !! "next") <-> is_Some (links !! "last"))
  /\ (forall key, is_Some (links !! key) -> key ∈ ["first"; "prev"; "next"; "last"]).
Proof.
  cbv zeta.
  apply (getLinks_links_in_pairs (Sample.page "2" "10")
           (Sample.request "GET" "/v1/posts" [("page[number]", "2"); ("page[size]", "10")] "")
           25 Sample.info _ None).
  vm_compute. reflexivity.
Defined.

(** X2.  The errors of [getLinks] are the parse errors of the parameters of
    its mode, and nothing else.  In number/size mode a page number that does
    not parse gives the error and no link; a size that does not parse gives
    the error after [first] and [prev] were written (when the page number
    is not written ["1"]), and never [next].  In offset/limit mode both
    parameters are parsed before any link is written: the error comes with
    an empty map. *)
Theorem getLinks_parse_errors p r count info :
  (number p <> "" ->
   (forall e, ParseUint (number p) = Err e ->
              getLinks p r count info = Returns (∅, Some e))
   /\ (forall n e, ParseUint (number p) = Ok n -> ParseUint (size p) = Err e ->
                   exists links,
                     getLinks p r count info = Returns (links, Some e)
                     /\ (is_Some (links !! "first") <-> number p <> "1")
                     /\ links !! "next" = None))
  /\ (number p = "" ->
      forall e,
        ParseUint (offset p) = Err e
        \/ (exists o, ParseUint (offset p) = Ok o /\ ParseUint (limit p) = Err e) ->
        getLinks p r count info = Returns (∅, Some e))
  /\ (forall links e,
         getLinks p r count info = Returns (links, Some e) ->
         if String.eqb (number p) ""
         then ParseUint (offset p) = Err e \/ ParseUint (limit p) = Err e
         else ParseUint (number p) = Err e \/ ParseUint (size p) = Err e).
Proof.
  split; [|split].
  - intros Hne. split.
    + intros e He. unfold getLinks. rewrite (eqb_empty_false _ Hne). cbn [negb].
      rewrite He. reflexivity.
    + intros n e Hn He. rewrite (getLinks_number_branch p r count info n Hn).
      cbn zeta. rewrite He.
      destruct (String.eqb (number p) "1") eqn:H1; cbn [negb].
      * apply String.eqb_eq in H1. eexists. split; [reflexivity|].
        links_lookup. split; [|reflexivity].
        split; [intros [? ?]; discriminate | intros H; contradiction].
      * apply String.eqb_neq in H1. eexists. split; [reflexivity|].
        links_lookup. split; [|reflexivity].
        split; [intros _; exact H1 | intros _; eauto].
  - intros Hnum e He. unfold getLinks. rewrite Hnum. cbn [String.eqb negb].
    destruct He as [He | (o & Ho & He)].
    + rewrite He. reflexivity.
    + rewrite Ho, He. reflexivity.
  - intros links e. unfold getLinks.
    destruct (String.eqb (number p) ""); cbn [negb].
    + destruct (ParseUint (offset p)) as [o|e1]; [|intros [= _ <-]; auto].
      destruct (ParseUint (limit p)) as [l|e2]; [|intros [= _ <-]; auto].
      destruct (negb (String.eqb (offset p) "0"));
        destruct (wrap64 (o + l) <? count); discriminate.
    + destruct (ParseUint (number p)) as [n|e1]; [|intros [= _ <-]; auto].
      destruct (negb (String.eqb (number p) "1"));
        (destruct (ParseUint (size p)) as [s|e2]; [|intros [= _ <-]; auto]);
        (destruct (s =? 0); [discriminate|]);
        match goal with |- context [if negb (n =? ?t) then _ else _] =>
          destruct (negb (n =? t)) end; discriminate.
Qed.

(** X3.  On an empty collection the two modes differ.  In number/size mode
    the page count is 0, so every page [n >= 1] still gets [next] and
    [last], [last] pointing at page 0; in offset/limit mode there is never a
    [next] or a [last]. *)
Theorem getLinks_empty_collection p r info :
  (forall n s,
      ParseUint (number p) = Ok n -> ParseUint (size p) = Ok s ->
      1 <= n -> 1 <= s ->
      exists links,
        getLinks p r 0 info = Returns (links, None)
        /\ links !! "next"
           = Some (link_to info r "page[number]" (FormatUint (wrap64 (n + 1))))
        /\ links !! "last" = Some (link_to info r "page[number]" "0"))
  /\ (forall o l,
         number p = "" -> ParseUint (offset p) = Ok o -> ParseUint (limit p) = Ok l ->
         exists links,
           getLinks p r 0 info = Returns (links, None)
           /\ links !! "next" = None /\ links !! "last" = None).
Proof.
  split.
  - intros n s Hn Hs Hn1 Hs1.
    rewrite (getLinks_number_branch p r 0 info n Hn). cbn zeta. rewrite Hs.
    destruct (s =? 0) eqn:Hz; [apply Z.eqb_eq in Hz; lia|].
    rewrite Z.mod_0_l by lia. rewrite Z.div_0_l by lia. cbn [Z.eqb negb].
    destruct (n =? 0) eqn:Hn0; [apply Z.eqb_eq in Hn0; lia|]. cbn [negb].
    destruct (negb (String.eqb (number p) "1"));
      eexists; (split; [reflexivity|]);
      rewrite ?Values_Set_again, ?link_is_link_to;
      split; links_lookup; reflexivity.
  - intros o l Hnum Ho Hl.
    pose proof (ParseUint_range _ _ Ho). pose proof (ParseUint_range _ _ Hl).
    rewrite (getLinks_offset_branch p r 0 info o l Hnum Ho Hl). cbn zeta.
    assert ((wrap64 (o + l) <? 0) = false) as ->.
    { apply Z.ltb_ge. unfold wrap64. apply Z.mod_pos_bound. lia. }
    destruct (negb (String.eqb (offset p) "0"));
      eexists; (split; [reflexivity|]); split; links_lookup; reflexivity.
Qed.

(** ** Numbers in links *)

Lemma of_lu_revapp_ge d d' :
  (DecimalPos.Unsigned.of_lu d' <= DecimalPos.Unsigned.of_lu (Decimal.revapp d d'))%N.
Proof.
  rewrite DecimalPos.Unsigned.of_lu_revapp.
  assert (1 <= 10 ^ DecimalPos.Unsigned.usize d)%N.
  { change 1%N with (10 ^ 0)%N. apply N.pow_le_mono_r; lia. }
  nia.
Qed.

Lemma parse_digits_of_uint orig d d' :
  Z.of_N (DecimalPos.Unsigned.of_lu (Decimal.revapp d d')) <= maxUint64 ->
  parse_digits orig (NilEmpty.string_of_uint d) (Z.of_N (DecimalPos.Unsigned.of_lu d'))
  = Ok (Z.of_N (DecimalPos.Unsigned.of_lu (Decimal.revapp d d'))).
Proof.
  revert d'. induction d as [|d IH|d IH|d IH|d IH|d IH|d IH|d IH|d IH|d IH|d IH];
    intros d' Hmax; [reflexivity|..];
    cbn [Decimal.revapp] in Hmax |- *;
    match goal with
    | Hmax : Z.of_N (DecimalPos.Unsigned.of_lu (Decimal.revapp d ?e)) <= _ |- _ =>
        pose proof (of_lu_revapp_ge d e) as Hge;
        specialize (IH e Hmax);
        cbn [DecimalPos.Unsigned.of_lu] in Hge, IH
    end;
    cbn [NilEmpty.string_of_uint parse_digits];
    match goal with |- context [is_digit ?c] =>
      change (is_digit c) with true; cbn iota;
      match goal with |- context [digit_value c] =>
        let v := eval vm_compute in (digit_value c) in
        change (digit_value c) with v
      end
    end;
    unfold cutoff, maxUint64 in *;
    change (18446744073709551615 / 10 + 1) with 1844674407370955162;
    (destruct (1844674407370955162 <=? Z.of_N (DecimalPos.Unsigned.of_lu d')) eqn:Hcut;
     [apply Z.leb_le in Hcut; lia|]);
    match goal with |- context [18446744073709551615 <? ?n1] =>
      destruct (18446744073709551615 <? n1) eqn:Hn1;
      [apply Z.ltb_lt in Hn1; lia|];
      match type of IH with parse_digits _ _ ?acc = _ =>
        replace n1 with acc by lia
      end
    end;
    exact IH.
Qed.

(** X4.  The numbers in the links and the numbers in the parameters are
    written and read alike: every [uint64] that [getLinks] formats into a
    link parses, by the parser [getLinks] reads its parameters with, to
    itself.  So the text that stands for 1 is ["1"] and the text that stands
    for 0 is ["0"] in every link the package writes, and the gates of
    [first] and [prev], which compare texts, decide on such a text as the
    numbers would. *)
Theorem ParseUint_FormatUint n :
  0 <= n <= maxUint64 ->
  ParseUint (FormatUint n) = Ok n
  /\ (FormatUint n = "1" <-> n = 1)
  /\ (FormatUint n = "0" <-> n = 0).
Proof.
  intros Hn.
  assert (ParseUint (FormatUint n) = Ok n) as Hround.
  { unfold FormatUint.
    set (d := N.to_uint (Z.to_N n)).
    assert (d <> Decimal.Nil) as Hnil.
    { unfold d, N.to_uint. destruct (Z.to_N n); [discriminate|].
      apply DecimalPos.Unsigned.to_uint_nonnil. }
    assert (DecimalPos.Unsigned.of_lu (Decimal.revapp d Decimal.Nil) = Z.to_N n) as Hval.
    { change (Decimal.revapp d Decimal.Nil) with (Decimal.rev d).
      rewrite <- DecimalPos.Unsigned.of_uint_alt.
      exact (DecimalN.Unsigned.of_to (Z.to_N n)). }
    pose proof (parse_digits_of_uint (NilZero.string_of_uint d) d Decimal.Nil) as Hparse.
    rewrite Hval in Hparse. rewrite Z2N.id in Hparse by lia.
    specialize (Hparse (proj2 Hn)).
    unfold ParseUint.
    destruct d; [contradiction|..]; exact Hparse. }
  split; [exact Hround|]. split; split; intros H.
  - rewrite H in Hround. injection Hround as <-. reflexivity.
  - subst n. reflexivity.
  - rewrite H in Hround. injection Hround as <-. reflexivity.
  - subst n. reflexivity.
Qed.

Lemma ParseUint_FormatUint_witness :
  ParseUint (FormatUint 18446744073709551615) = Ok 18446744073709551615.
Proof.
  apply (ParseUint_FormatUint 18446744073709551615).
  unfold maxUint64. lia.
Defined.

(** ** Query parameters *)

Lemma values_of_cons key k v pairs :
  values_of key ((k, v) :: pairs)
  = if decide (k = key) then v :: values_of key pairs else values_of key pairs.
Proof.
  unfold values_of. rewrite filter_cons. cbn [fst].
  case_decide; reflexivity.
Qed.

Lemma query_fold_lookup (pairs : list (string * string)) (m : Values) key :
  (forall k, m !! k <> Some []) ->
  foldl (fun (m : Values) kv => <[kv.1 := default [] (m !! kv.1) ++ [kv.2]]> m) m pairs
    !! key
  = match default [] (m !! key) ++ values_of key pairs with
    | [] => None
    | values => Some values
    end.
Proof.
  revert m. induction pairs as [|[k v] pairs IH]; intros m Hm.
  - cbn [foldl]. unfold values_of. cbn. rewrite app_nil_r.
    destruct (m !! key) as [[|x l]|] eqn:Hk; try reflexivity.
    exfalso. exact (Hm key Hk).
  - cbn [foldl fst snd]. rewrite IH.
    + rewrite values_of_cons. rewrite lookup_insert.
      case_decide as Hkey.
      * subst k. cbn [from_option id]. rewrite <- app_assoc. reflexivity.
      * reflexivity.
    + intros k'. rewrite lookup_insert. case_decide; [|apply Hm].
      intros [= Heq]. destruct (default [] (m !! k)); discriminate Heq.
Qed.

(** The parsed query string binds a key to the values written for it, in
    order, and binds no key without a value. *)
Lemma URL_Query_lookup u key :
  URL_Query u !! key
  = match values_of key (RawQuery u) with
    | [] => None
    | values => Some values
    end.
Proof.
  unfold URL_Query. rewrite query_fold_lookup.
  - rewrite lookup_empty. reflexivity.
  - intros k. rewrite lookup_empty. discriminate.
Qed.

Lemma Values_Get_first_value u key :
  Values_Get (URL_Query u) key = default "" (first_value key (RawQuery u)).
Proof.
  unfold Values_Get, first_value. rewrite URL_Query_lookup.
  destruct (values_of key (RawQuery u)); reflexivity.
Qed.

Lemma Split_comma_nonempty s : Split_comma s <> [].
Proof.
  destruct s as [|c rest]; cbn [Split_comma]; [discriminate|].
  destruct (Ascii.eqb c ","); [discriminate|].
  destruct (Split_comma rest); discriminate.
Qed.

Lemma Split_comma_join s : String.concat "," (Split_comma s) = s.
Proof.
  induction s as [|c rest IH]; [reflexivity|].
  cbn [Split_comma]. pose proof (Split_comma_nonempty rest) as Hne.
  destruct (Ascii.eqb c ",") eqn:Hc.
  - apply Ascii.eqb_eq in Hc. subst c.
    destruct (Split_comma rest) as [|h t] eqn:Hs; [contradiction|].
    change (String.concat "," ("" :: h :: t)) with ("," +:+ String.concat "," (h :: t)).
    rewrite IH. reflexivity.
  - destruct (Split_comma rest) as [|h t] eqn:Hs; [contradiction|].
    destruct t as [|h' t'].
    + cbn [String.concat] in *. rewrite IH. reflexivity.
    + change (String.concat "," (String c h :: h' :: t'))
        with (String c (h +:+ "," +:+ String.concat "," (h' :: t'))).
      change (String.concat "," (h :: h' :: t'))
        with (h +:+ "," +:+ String.concat "," (h' :: t')) in IH.
      rewrite IH. reflexivity.
Qed.

Lemma Split_comma_pieces s :
  length (Split_comma s) = S (count_commas s)
  /\ Forall (fun piece => count_commas piece = O) (Split_comma s).
Proof.
  induction s as [|c rest [IHlen IHall]].
  - split; [reflexivity | repeat constructor].
  - cbn [Split_comma count_commas].
    pose proof (Split_comma_nonempty rest) as Hne.
    destruct (Ascii.eqb c ",") eqn:Hc.
    + split; [cbn [length]; rewrite IHlen; reflexivity|].
      constructor; [reflexivity | exact IHall].
    + destruct (Split_comma rest) as [|h t] eqn:Hs; [contradiction|].
      split; [exact IHlen|].
      inversion IHall as [|? ? Hh Ht]; subst.
      constructor; [|exact Ht]. cbn [count_commas]. rewrite Hc. exact Hh.
Qed.

Lemma QueryParams_lookup r key :
  QueryParams (buildRequest r) !! key
  = Split_comma <$> first_value key (RawQuery (RequestURL r)).
Proof.
  unfold buildRequest. cbn [QueryParams]. rewrite lookup_fmap.
  rewrite URL_Query_lookup. unfold first_value.
  destruct (values_of key (RawQuery (RequestURL r))); reflexivity.
Qed.

(** X5.  The query parameters a backend receives: a key of the query string
    is bound to the comma-split of the first value written for it, later
    values of a repeated key are dropped, and a key that is not in the query
    string is not bound. *)
Theorem buildRequest_first_value_only r key :
  QueryParams (buildRequest r) !! key
  = Split_comma <$> first_value key (RawQuery (RequestURL r)).
Proof.
  rewrite QueryParams_lookup.
  destruct (first_value key (RawQuery (RequestURL r))); reflexivity.
Qed.

(** X6.  The split loses nothing of that first value: the pieces a backend
    receives for a key, joined with commas, are the first value as it was
    written; there is one piece more than the value has commas, and no piece
    has a comma. *)
Theorem buildRequest_pieces_join r key value :
  first_value key (RawQuery (RequestURL r)) = Some value ->
  exists pieces,
    QueryParams (buildRequest r) !! key = Some pieces
    /\ String.concat "," pieces = value
    /\ length pieces = S (count_commas value)
    /\ Forall (fun piece => count_commas piece = O) pieces.
Proof.
  intros Hfirst. exists (Split_comma value).
  rewrite QueryParams_lookup, Hfirst.
  split; [reflexivity|]. split; [apply Split_comma_join|].
  apply Split_comma_pieces.
Qed.

Lemma buildRequest_pieces_join_witness :
  exists pieces,
    QueryParams (buildRequest
                   (Sample.request "GET" "/v1/posts"
                      [("sort", "title,-created"); ("sort", "id")] "")) !! "sort"
    = Some pieces
    /\ String.concat "," pieces = "title,-created"
    /\ length pieces = 2%nat
    /\ Forall (fun piece => count_commas piece = O) pieces.
Proof.
  apply (buildRequest_pieces_join
           (Sample.request "GET" "/v1/posts" [("sort", "title,-created"); ("sort", "id")] "")
           "sort" "title,-created").
  reflexivity.
Defined.

(** X7.  The pagination parameters of a request are the first values
    written for the four [page[...]] keys, the empty string for a key that
    is not written: a key written with an empty first value counts as
    absent. *)
Theorem newPaginationQueryParams_first_values r :
  let first key := default "" (first_value key (RawQuery (RequestURL r))) in
  newPaginationQueryParams r
  = {| number := first "page[number]"; size := first "page[size]";
       offset := first "page[offset]"; limit := first "page[limit]" |}.
Proof.
  cbv zeta. unfold newPaginationQueryParams.
  rewrite !Values_Get_first_value. reflexivity.
Qed.

(** ** The prefix of an API *)

Lemma TrimLeft_slash_result s :
  TrimLeft_slash s = "" \/ exists c rest, TrimLeft_slash s = String c rest /\ c <> "/"%char.
Proof.
  induction s as [|c rest IH]; [left; reflexivity|].
  cbn [TrimLeft_slash]. destruct (Ascii.eqb c "/") eqn:Hc; [exact IH|].
  right. exists c, rest. split; [reflexivity|]. apply Ascii.eqb_neq. exact Hc.
Qed.

Lemma TrimRight_slash_again s : TrimRight_slash (TrimRight_slash s) = TrimRight_slash s.
Proof.
  induction s as [|c rest IH]; [reflexivity|].
  cbn [TrimRight_slash].
  destruct (Ascii.eqb c "/" && String.eqb (TrimRight_slash rest) "") eqn:Hcond;
    [reflexivity|].
  cbn [TrimRight_slash]. rewrite IH, Hcond. reflexivity.
Qed.

Lemma TrimRight_slash_append_slash s : TrimRight_slash (s +:+ "/") = TrimRight_slash s.
Proof.
  induction s as [|c rest IH]; [reflexivity|].
  change (String c rest +:+ "/") with (String c (rest +:+ "/")).
  cbn [TrimRight_slash]. rewrite IH. reflexivity.
Qed.

Lemma TrimRight_slash_first c rest :
  c <> "/"%char ->
  TrimRight_slash (String c rest) = String c (TrimRight_slash rest).
Proof.
  intros Hc. cbn [TrimRight_slash].
  apply Ascii.eqb_neq in Hc. rewrite Hc. reflexivity.
Qed.

Section Prefix.
Context {Obj BS : Type} `{!Externals Obj}.

(** X8.  [NewAPI] gives every prefix exactly one leading and one trailing
    slash: the route prefix is ["/"] when the given prefix has nothing but
    slashes, and else the prefix without its leading and trailing slashes,
    which then starts and ends with no slash, between two slashes.  The
    normalisation is idempotent, and the [information] of the API keeps the
    prefix as it was given. *)
Theorem NewAPI_prefix_normalised (prefix : string) :
  let api := NewAPI (Obj := Obj) (BS := BS) prefix in
  let core := TrimRight_slash (TrimLeft_slash prefix) in
  api_prefix api = (if String.eqb core "" then "/" else "/" +:+ core +:+ "/")
  /\ TrimLeft_slash core = core
  /\ TrimRight_slash core = core
  /\ api_prefix (NewAPI (Obj := Obj) (BS := BS) (api_prefix api)) = api_prefix api
  /\ GetPrefix (api_info api) = prefix.
Proof.
  cbv zeta. unfold NewAPI. cbn [api_prefix api_info GetPrefix info_prefix].
  set (core := TrimRight_slash (TrimLeft_slash prefix)).
  assert (core = "" \/ exists c rest, core = String c rest /\ c <> "/"%char) as Hcore.
  { unfold core.
    destruct (TrimLeft_slash_result prefix) as [-> | (c & rest & -> & Hc)];
      [left; reflexivity|].
    right. rewrite (TrimRight_slash_first c rest Hc). eauto. }
  assert (TrimRight_slash core = core) as Hright
      by (unfold core; apply TrimRight_slash_again).
  destruct Hcore as [Hempty | (c & rest & Hc & Hslash)].
  - rewrite Hempty. cbn. repeat split; reflexivity.
  - rewrite Hc. cbn [String.length String.eqb].
    assert (Ascii.eqb c "/" = false) as Hcb by (apply Ascii.eqb_neq; exact Hslash).
    change (0 <? Z.of_nat (S (String.length rest))) with true. cbn iota.
    split; [reflexivity|].
    split; [cbn [TrimLeft_slash]; rewrite Hcb; reflexivity|].
    split; [rewrite <- Hc; exact Hright|].
    split; [|reflexivity].
    change (TrimLeft_slash ("/" +:+ String c rest +:+ "/"))
      with (TrimLeft_slash (String c (rest +:+ "/"))).
    cbn [TrimLeft_slash]. rewrite Hcb.
    change (String c (rest +:+ "/")) with (String c rest +:+ "/").
    rewrite TrimRight_slash_append_slash. rewrite <- Hc, Hright, Hc.
    cbn [String.length]. reflexivity.
Qed.

(** X9.  [NewAPIWithMarshalers] panics exactly on an empty marshaler map;
    otherwise the API has the prefix of [NewAPI], the base URL and the
    marshalers given, no route and no resource, and every resource that
    [AddResource] then registers carries these marshalers. *)
Theorem NewAPIWithMarshalers_marshalers (prefix base : string) (configured : Marshalers) :
  (configured = ∅ <->
   NewAPIWithMarshalers (Obj := Obj) (BS := BS) prefix base configured
   = Panics "marshaler map must not be empty")
  /\ (forall api,
         NewAPIWithMarshalers (Obj := Obj) (BS := BS) prefix base configured = Returns api ->
         configured <> ∅
         /\ api_marshalers api = configured
         /\ api_prefix api = api_prefix (NewAPI (Obj := Obj) (BS := BS) prefix)
         /\ api_info api = {| info_prefix := prefix; baseURL := base |}
         /\ api_router api = [] /\ api_resources api = []
         /\ forall prototype source api',
              AddResource api prototype source = Returns api' ->
              Forall (fun res => marshalers res = configured)
                     (api_resources api')).
Proof.
  unfold NewAPIWithMarshalers.
  destruct (map_to_list configured) as [|kv l] eqn:Hl.
  - apply map_to_list_empty_iff in Hl. cbn [length].
    change (Z.of_nat 0 =? 0) with true. cbn iota. split.
    + split; [intros _; reflexivity | intros _; exact Hl].
    + intros api [=].
  - assert (configured <> ∅) as Hne.
    { intros Hempty. apply map_to_list_empty_iff in Hempty.
      rewrite Hempty in Hl. discriminate Hl. }
    cbn [length]. change (Z.of_nat (S (length l)) =? 0) with false. cbn iota.
    split.
    + split; [intros H; contradiction | intros [=]].
    + intros api [= <-]. cbn [api_marshalers api_prefix api_info api_router api_resources].
      split; [exact Hne|]. repeat (split; [reflexivity|]).
      intros prototype source api'. unfold AddResource, addResource.
      cbn [api_marshalers api_resources].
      destruct (Kind (TypeOf prototype)); intros [= <-]; cbn [api_resources app];
        repeat constructor.
Qed.

End Prefix.

(** ** The route table of a resource *)

Lemma prefix_append (a b : string) : String.prefix a (a +:+ b) = true.
Proof.
  induction a as [|c a IH]; [destruct b; reflexivity|].
  change (String c a +:+ b) with (String c (a +:+ b)). cbn [String.prefix].
  destruct (ascii_dec c c) as [_|Hne]; [exact IH | contradiction].
Qed.

Lemma append_inv_head (a b c : string) : a +:+ b = a +:+ c -> b = c.
Proof.
  induction a as [|x a IH]; [intros H; exact H|].
  change (String x (a +:+ b) = String x (a +:+ c) -> b = c).
  intros [= H]. exact (IH H).
Qed.

Lemma append_eqb_self_false (a b : string) : b <> "" -> String.eqb (a +:+ b) a = false.
Proof.
  intros Hb. apply String.eqb_neq. intros H.
  apply Hb. apply (append_inv_head a). rewrite append_empty_r. exact H.
Qed.

Section Table.
Context {Obj BS : Type} `{!Externals Obj}.

Implicit Types (api : API (Obj := Obj) (BS := BS)).

Lemma relation_routes_length base edits relation :
  length (relation_routes base edits relation)
  = (3 + (if edits && String.eqb (ref_Name relation) (Pluralize (ref_Name relation))
          then 2 else 0))%nat.
Proof.
  unfold relation_routes. rewrite length_app.
  destruct (edits && String.eqb (ref_Name relation) (Pluralize (ref_Name relation)));
    reflexivity.
Qed.

Lemma relations_routes_length base edits relations :
  length (flat_map (relation_routes base edits) relations)
  = (3 * length relations
     + (if edits then 2 * length (to_many relations) else 0))%nat.
Proof.
  induction relations as [|relation relations IH]; cbn [flat_map].
  - destruct edits; reflexivity.
  - rewrite length_app, relation_routes_length, IH. unfold to_many.
    cbn [List.filter length].
    destruct edits; cbn [andb];
      [destruct (String.eqb (ref_Name relation) (Pluralize (ref_Name relation)))|];
      cbn [length]; lia.
Qed.

(** X10.  Registration only appends.  A prototype that is neither a struct
    nor a pointer makes [addResource] panic; otherwise the resource is named
    by the bare name of the struct type, pluralized and then jsonified, the
    same for a struct and for a pointer to it; the routes of the API so far
    and its resources so far are kept in front of the new ones, one resource
    is added, and prefix, information and marshalers of the API stay. *)
Theorem addResource_appends api prototype (source : CRUD Obj BS) marshalers :
  (Kind (TypeOf prototype) = OtherKind ->
   exists reason, addResource api prototype source marshalers = Panics reason)
  /\ (Kind (TypeOf prototype) <> OtherKind ->
      exists api' routes,
        let res :=
          {| resourceType := TypeOf prototype;
             name := Jsonify (Pluralize (Name (structType_of (TypeOf prototype))));
             source := source; marshalers := marshalers |} in
        addResource api prototype source marshalers = Returns (api', res)
        /\ api_router api' = api_router api ++ routes
        /\ api_resources api' = api_resources api ++ [res]
        /\ api_prefix api' = api_prefix api
        /\ api_info api' = api_info api
        /\ api_marshalers api' = api_marshalers api).
Proof.
  unfold addResource, structType_of. split.
  - intros ->. eexists. reflexivity.
  - intros Hkind. destruct (Kind (TypeOf prototype)); [| |contradiction];
      eexists; eexists; cbv zeta; (split; [reflexivity|]);
      cbn [api_router api_resources api_prefix api_info api_marshalers];
      repeat split; reflexivity.
Qed.

End Table.

Lemma addResource_appends_witness :
  exists api' routes,
    addResource (NewAPI "v1") Sample.Post Sample.crud_only DefaultContentMarshalers
    = Returns (api', {| resourceType := StructType "Post"; name := "posts";
                        source := Sample.crud_only;
                        marshalers := DefaultContentMarshalers |})
    /\ api_router api'
       = api_router (NewAPI (Obj := Sample.Obj) (BS := Sample.Store) "v1") ++ routes.
Proof.
  destruct (proj2 (addResource_appends
                     (NewAPI "v1") Sample.Post Sample.crud_only
                     (DefaultContentMarshalers (Obj := Sample.Obj))))
    as (api' & routes & Hadd & Hrouter & _).
  - discriminate.
  - exists api', routes. split; [exact Hadd | exact Hrouter].
Defined.

Lemma append_eqb_head (a b c : string) : String.eqb (a +:+ b) (a +:+ c) = String.eqb b c.
Proof.
  induction a as [|x a IH]; [reflexivity|].
  change (String.eqb (String x (a +:+ b)) (String x (a +:+ c)) = String.eqb b c).
  cbn [String.eqb]. rewrite Ascii.eqb_refl. exact IH.
Qed.

Lemma append_eqb_self_r (a : string) c b : String.eqb a (a +:+ String c b) = false.
Proof.
  rewrite String.eqb_sym. apply append_eqb_self_false. discriminate.
Qed.

Section Routes.
Context {Obj BS : Type} `{!Externals Obj}.

Implicit Types (api : API (Obj := Obj) (BS := BS)).

(** The route table after a registration, written out. *)
Lemma addResource_routes api prototype (source : CRUD Obj BS) marshalers :
  Kind (TypeOf prototype) <> OtherKind ->
  exists api' res,
    addResource api prototype source marshalers = Returns (api', res)
    /\ name res = Jsonify (Pluralize (Name (structType_of (TypeOf prototype))))
    /\ api_router api'
       = api_router api
         ++ resource_routes (api_prefix api +:+ name res)
              (ptr_EditToManyRelations prototype)
              (default [] (GetReferences prototype)).
Proof.
  intros Hkind. unfold addResource, structType_of, resource_routes.
  destruct (Kind (TypeOf prototype)); [| |contradiction];
    eexists; eexists; (split; [reflexivity|]); cbn [name api_router];
    (split; [reflexivity|]);
    destruct (GetReferences prototype); reflexivity.
Qed.

(** X11.  A registration adds seven routes, three more for every declared
    relationship, and two more for every declared relationship whose name
    is its own plural when the pointer to the prototype supports the
    to-many edit; a prototype that declares no relationships gets the seven
    whatever it supports. *)
Theorem addResource_route_count api prototype (source : CRUD Obj BS) marshalers :
  Kind (TypeOf prototype) <> OtherKind ->
  exists api' res routes,
    addResource api prototype source marshalers = Returns (api', res)
    /\ api_router api' = api_router api ++ routes
    /\ length routes
       = (7 + 3 * length (default [] (GetReferences prototype))
          + (if ptr_EditToManyRelations prototype
             then 2 * length (to_many (default [] (GetReferences prototype)))
             else 0))%nat
    /\ (GetReferences prototype = None -> length routes = 7%nat).
Proof.
  intros Hkind.
  destruct (addResource_routes api prototype source marshalers Hkind)
    as (api' & res & Hadd & _ & Hrouter).
  eexists. eexists. eexists. split; [exact Hadd|]. split; [exact Hrouter|].
  unfold resource_routes. rewrite !length_app, relations_routes_length.
  cbn [length]. split; [lia|].
  intros ->. cbn [from_option length]. unfold to_many. cbn [List.filter length].
  destruct (ptr_EditToManyRelations prototype); reflexivity.
Qed.

Lemma relation_routes_under base edits relation rt :
  rt ∈ relation_routes base edits relation ->
  String.prefix base (route_path rt) = true
  /\ route_method rt ∈ ["OPTIONS"; "GET"; "POST"; "PATCH"; "DELETE"].
Proof.
  unfold relation_routes. intros Hin.
  apply elem_of_app in Hin as [Hin | Hin].
  - repeat (apply elem_of_cons in Hin as [-> | Hin]);
      [cbn [route_path route_method]; split; [apply prefix_append | set_solver] ..|].
    apply elem_of_nil in Hin. contradiction.
  - destruct (edits && String.eqb (ref_Name relation) (Pluralize (ref_Name relation)));
      [|apply elem_of_nil in Hin; contradiction].
    repeat (apply elem_of_cons in Hin as [-> | Hin]);
      [cbn [route_path route_method]; split; [apply prefix_append | set_solver] ..|].
    apply elem_of_nil in Hin. contradiction.
Qed.

(** X12.  Every route a registration adds lies under the path of the
    resource, the route prefix of the API followed by the name of the
    resource, and answers one of [OPTIONS], [GET], [POST], [PATCH] and
    [DELETE]. *)
Theorem addResource_routes_under_resource api prototype (source : CRUD Obj BS) marshalers :
  Kind (TypeOf prototype) <> OtherKind ->
  exists api' res routes,
    addResource api prototype source marshalers = Returns (api', res)
    /\ api_router api' = api_router api ++ routes
    /\ forall rt, rt ∈ routes ->
         String.prefix (api_prefix api +:+ name res) (route_path rt) = true
         /\ route_method rt ∈ ["OPTIONS"; "GET"; "POST"; "PATCH"; "DELETE"].
Proof.
  intros Hkind.
  destruct (addResource_routes api prototype source marshalers Hkind)
    as (api' & res & Hadd & _ & Hrouter).
  eexists. eexists. eexists. split; [exact Hadd|]. split; [exact Hrouter|].
  set (base := api_prefix api +:+ name res).
  assert (String.prefix base base = true) as Hself.
  { rewrite <- (append_empty_r base) at 2. apply prefix_append. }
  intros rt Hrt. unfold resource_routes in Hrt.
  apply elem_of_app in Hrt as [Hrt | Hrt].
  - repeat (apply elem_of_cons in Hrt as [-> | Hrt]);
      [cbn [route_path route_method];
       split; [first [exact Hself | apply prefix_append] | set_solver] ..|].
    apply elem_of_nil in Hrt. contradiction.
  - apply elem_of_app in Hrt as [Hrt | Hrt].
    + apply list_elem_of_In, in_flat_map in Hrt as (relation & _ & Hrt).
      apply list_elem_of_In in Hrt. exact (relation_routes_under _ _ _ _ Hrt).
    + repeat (apply elem_of_cons in Hrt as [-> | Hrt]);
        [cbn [route_path route_method];
         split; [first [exact Hself | apply prefix_append] | set_solver] ..|].
      apply elem_of_nil in Hrt. contradiction.
Qed.

Lemma relations_routes_elsewhere base edits relations :
  methods_at base (flat_map (relation_routes base edits) relations) = []
  /\ methods_at (base +:+ "/:id") (flat_map (relation_routes base edits) relations) = [].
Proof.
  unfold methods_at.
  induction relations as [|relation relations [IH1 IH2]]; [split; reflexivity|].
  cbn [flat_map]. rewrite !List.filter_app, !List.map_app, IH1, IH2, !app_nil_r.
  unfold relation_routes. rewrite !List.filter_app, !List.map_app.
  destruct (edits && String.eqb (ref_Name relation) (Pluralize (ref_Name relation)));
    cbn [List.filter route_path];
    rewrite ?append_eqb_self_false by discriminate;
    rewrite ?append_eqb_head;
    split; reflexivity.
Qed.

(** X13.  The [Allow] headers against the routes.  On the path of the
    collection a registration adds routes for [OPTIONS], [GET] and [POST]
    and for nothing else, while [OPTIONS] there answers 204 with
    [Allow: GET,POST,PATCH,OPTIONS]: no [PATCH] route stands behind the
    [PATCH] it lists.  On the path of an item the routes are those for
    [OPTIONS], [GET], [DELETE] and [PATCH], the four methods of
    [Allow: GET,PATCH,DELETE,OPTIONS].  Neither [OPTIONS] handler calls the
    backend or writes a body. *)
Theorem options_allow_and_routes api prototype (source : CRUD Obj BS) marshalers
    (w : World (Obj := Obj) (BS := BS)) :
  Kind (TypeOf prototype) <> OtherKind ->
  exists api' res routes,
    addResource api prototype source marshalers = Returns (api', res)
    /\ api_router api' = api_router api ++ routes
    /\ methods_at (api_prefix api +:+ name res) routes = ["OPTIONS"; "GET"; "POST"]
    /\ methods_at ((api_prefix api +:+ name res) +:+ "/:id") routes
       = ["OPTIONS"; "GET"; "DELETE"; "PATCH"]
    /\ (exists w',
           handleOptionsCollection w = Returns (Ok tt, w')
           /\ w_header (writer w') !! "Allow" = Some ["GET,POST,PATCH,OPTIONS"]
           /\ answers StatusNoContent "" (writer w) (writer w')
           /\ calls w' = calls w /\ store w' = store w)
    /\ (exists w',
           handleOptionsItem w = Returns (Ok tt, w')
           /\ w_header (writer w') !! "Allow" = Some ["GET,PATCH,DELETE,OPTIONS"]
           /\ answers StatusNoContent "" (writer w) (writer w')
           /\ calls w' = calls w /\ store w' = store w).
Proof.
  intros Hkind.
  destruct (addResource_routes api prototype source marshalers Hkind)
    as (api' & res & Hadd & _ & Hrouter).
  eexists. eexists. eexists. split; [exact Hadd|]. split; [exact Hrouter|].
  set (base := api_prefix api +:+ name res).
  destruct (relations_routes_elsewhere base (ptr_EditToManyRelations prototype)
              (default [] (GetReferences prototype))) as [Hcoll Hitem].
  unfold methods_at in *. unfold resource_routes.
  rewrite !List.filter_app, !List.map_app, Hcoll, Hitem.
  cbn [List.filter route_path].
  rewrite !String.eqb_refl, !append_eqb_self_r.
  rewrite !append_eqb_self_false by discriminate.
  split; [reflexivity|]. split; [reflexivity|].
  split.
  - eexists. split; [reflexivity|]. cbn [writer calls store].
    split; [|split; [|split; reflexivity]].
    + unfold WriteHeader, Header_Set. cbn [w_status w_header].
      destruct (w_status (writer w)); cbn [w_header]; apply lookup_insert_eq.
    + intros Hfresh.
      exact (WriteHeader_answers StatusNoContent
               (Header_Set "Allow" "GET,POST,PATCH,OPTIONS" (writer w)) Hfresh).
  - eexists. split; [reflexivity|]. cbn [writer calls store].
    split; [|split; [|split; reflexivity]].
    + unfold WriteHeader, Header_Set. cbn [w_status w_header].
      destruct (w_status (writer w)); cbn [w_header]; apply lookup_insert_eq.
    + intros Hfresh.
      exact (WriteHeader_answers StatusNoContent
               (Header_Set "Allow" "GET,PATCH,DELETE,OPTIONS" (writer w)) Hfresh).
Qed.

End Routes.

Lemma addResource_route_count_witness :
  exists api' res routes,
    addResource (NewAPI "v1") Sample.Post Sample.crud_only DefaultContentMarshalers
    = Returns (api', res)
    /\ api_router api' = api_router (NewAPI (Obj := Sample.Obj) (BS := Sample.Store) "v1")
                         ++ routes
    /\ length routes = 15%nat.
Proof.
  destruct (addResource_route_count
              (NewAPI "v1") Sample.Post Sample.crud_only
              (DefaultContentMarshalers (Obj := Sample.Obj)))
    as (api' & res & routes & Hadd & Hrouter & Hlen & _).
  - discriminate.
  - exists api', res, routes. split; [exact Hadd|]. split; [exact Hrouter|].
    rewrite Hlen. vm_compute. reflexivity.
Defined.

Lemma addResource_routes_under_resource_witness :
  exists api' res routes,
    addResource (NewAPI "v1") Sample.Post Sample.crud_only DefaultContentMarshalers
    = Returns (api', res)
    /\ api_router api' = api_router (NewAPI (Obj := Sample.Obj) (BS := Sample.Store) "v1")
                         ++ routes
    /\ forall rt, rt ∈ routes ->
         String.prefix (api_prefix (NewAPI (Obj := Sample.Obj) (BS := Sample.Store) "v1")
                        +:+ name res) (route_path rt) = true
         /\ route_method rt ∈ ["OPTIONS"; "GET"; "POST"; "PATCH"; "DELETE"].
Proof.
  apply (addResource_routes_under_resource
           (NewAPI "v1") Sample.Post Sample.crud_only
           (DefaultContentMarshalers (Obj := Sample.Obj))).
  discriminate.
Defined.

Lemma options_allow_and_routes_witness :
  exists api' res routes,
    addResource (NewAPI "v1") Sample.Post Sample.crud_only DefaultContentMarshalers
    = Returns (api', res)
    /\ api_router api' = api_router (NewAPI (Obj := Sample.Obj) (BS := Sample.Store) "v1")
                         ++ routes
    /\ methods_at (api_prefix (NewAPI (Obj := Sample.Obj) (BS := Sample.Store) "v1")
                   +:+ name res) routes = ["OPTIONS"; "GET"; "POST"].
Proof.
  destruct (options_allow_and_routes
              (NewAPI "v1") Sample.Post Sample.crud_only
              (DefaultContentMarshalers (Obj := Sample.Obj))
              (Sample.world Sample.one_post))
    as (api' & res & routes & Hadd & Hrouter & Hcoll & _).
  - discriminate.
  - exists api', res, routes. split; [exact Hadd|]. split; [exact Hrouter|]. exact Hcoll.
Defined.

(** ** Errors on the wire, and the marshaler that writes them *)

Section Answers.
Context {Obj BS : Type} `{!Externals Obj}.

Implicit Types (res : resource (Obj := Obj) (BS := BS)) (w : World (Obj := Obj) (BS := BS)).

(** X14.  The closure around a handler.  A handler that returns no error is
    left alone.  An error it returns is answered through the marshaler
    selected for the request: a structured error with its own status, any
    other error with 500, the body being [marshalError] of the error and
    the [Content-Type] the selected one, on the writer as the handler left
    it; the backend's state and the log of calls are not touched.  A panic
    of the handler or of the selection is not caught. *)
Theorem serve_answers (h : handler unit) r marshalers w :
  (forall w', h w = Returns (Ok tt, w') -> serve h r marshalers w = Returns (Ok tt, w'))
  /\ (forall reason, h w = Panics reason -> serve h r marshalers w = Panics reason)
  /\ (forall e w',
         h w = Returns (Err e, w') ->
         (forall marshaler contentType,
             selectContentMarshaler r marshalers = Returns (marshaler, contentType) ->
             exists w'',
               serve h r marshalers w = Returns (Ok tt, w'')
               /\ writer w''
                  = writeResult (marshalError e marshaler) (served_status e) contentType
                                (writer w')
               /\ answers (served_status e) (marshalError e marshaler)
                          (writer w') (writer w'')
               /\ w_header (writer w'') !! "Content-Type" = Some [contentType]
               /\ store w'' = store w' /\ calls w'' = calls w')
         /\ (forall reason,
                selectContentMarshaler r marshalers = Panics reason ->
                serve h r marshalers w = Panics reason)).
Proof.
  split; [|split].
  - intros w' Hh. unfold serve. rewrite Hh. destruct w'. reflexivity.
  - intros reason Hh. unfold serve. rewrite Hh. reflexivity.
  - intros e w' Hh. unfold serve. rewrite Hh. unfold handleError. run_handler.
    split.
    + intros marshaler contentType Hsel. rewrite Hsel.
      destruct e as [s|f n reason|he]; eexists; (split; [reflexivity|]);
        cbn [writer store calls served_status];
        (split; [reflexivity|]);
        (split; [apply writeResult_answers|]);
        (split; [rewrite writeResult_header; apply lookup_insert_eq|]);
        split; reflexivity.
    + intros reason Hsel. rewrite Hsel. reflexivity.
Qed.

Lemma marshaler_at_Some (marshalers : Marshalers) contentType marshaler :
  marshaler_at marshalers contentType = Some marshaler <->
  marshalers !! contentType = Some (Some marshaler).
Proof.
  unfold marshaler_at.
  destruct (marshalers !! contentType) as [[m|]|]; cbn; split; intros [=]; subst;
    reflexivity.
Qed.

Lemma selectContentMarshaler_configured (r : Request) (marshalers : Marshalers)
    marshaler contentType :
  selectContentMarshaler r marshalers = Returns (marshaler, contentType) ->
  marshalers !! contentType = Some (Some marshaler)
  \/ (marshaler, contentType) = (JSONContentMarshaler, jsonapi_mime).
Proof.
  unfold selectContentMarshaler.
  destruct (Header r !! "Accept") as [accept|].
  - destruct (marshaler_at marshalers _) as [m|] eqn:Hm; intros [= <- <-].
    + left. apply marshaler_at_Some. exact Hm.
    + right. reflexivity.
  - destruct (Header r !! "Content-Type") as [[|first rest]|]; [discriminate| |].
    + destruct (marshaler_at marshalers first) as [m|] eqn:Hm; intros [= <- <-].
      * left. apply marshaler_at_Some. exact Hm.
      * right. reflexivity.
    + intros [= <- <-]. right. reflexivity.
Qed.

(** X15.  [selectContentMarshaler] panics in one case only, a request with
    no [Accept] header and a [Content-Type] entry that has no value, and the
    panic is the index out of range of [contentTypes[0]].  When it returns,
    the content type is one the map binds to the marshaler returned, or the
    pair is the built-in JSON marshaler with [application/vnd.api+json]: a
    content type is never announced without the marshaler that writes it. *)
Theorem selectContentMarshaler_result (r : Request) (marshalers : Marshalers) :
  (forall reason,
      selectContentMarshaler r marshalers = Panics reason <->
      Header r !! "Accept" = None /\ Header r !! "Content-Type" = Some []
      /\ reason = index_out_of_range)
  /\ (forall marshaler contentType,
         selectContentMarshaler r marshalers = Returns (marshaler, contentType) ->
         marshalers !! contentType = Some (Some marshaler)
         \/ (marshaler, contentType) = (JSONContentMarshaler, jsonapi_mime)).
Proof.
  unfold selectContentMarshaler. split.
  - intros reason.
    destruct (Header r !! "Accept") as [accept|].
    + destruct (marshaler_at marshalers _);
        (split; [intros [=] | intros ([=] & _)]).
    + destruct (Header r !! "Content-Type") as [[|first rest]|].
      * split; [intros [= <-]; auto | intros (_ & _ & ->); reflexivity].
      * destruct (marshaler_at marshalers first);
          (split; [intros [=] | intros (_ & [=] & _)]).
      * split; [intros [=] | intros (_ & [=] & _)].
  - intros marshaler contentType. fold (selectContentMarshaler r marshalers).
    apply selectContentMarshaler_configured.
Qed.

(** X16.  With the default marshalers, which [NewAPI] and
    [NewAPIWithBaseURL] install, the selection is the same for every
    request that selects at all: the built-in JSON marshaler and
    [application/vnd.api+json], whatever [Accept] and [Content-Type] ask
    for and whatever the negotiation answers. *)
Theorem selectContentMarshaler_default (prefix base : string) (r : Request) selected :
  api_marshalers (NewAPI (Obj := Obj) (BS := BS) prefix) = DefaultContentMarshalers
  /\ api_marshalers (NewAPIWithBaseURL (Obj := Obj) (BS := BS) prefix base)
     = DefaultContentMarshalers
  /\ (selectContentMarshaler r DefaultContentMarshalers = Returns selected ->
      selected = (JSONContentMarshaler, jsonapi_mime)).
Proof.
  split; [reflexivity|]. split; [reflexivity|].
  destruct selected as [marshaler contentType]. intros Hsel.
  destruct (selectContentMarshaler_configured r DefaultContentMarshalers
              marshaler contentType Hsel) as [Hfound | Hdefault]; [|exact Hdefault].
  unfold DefaultContentMarshalers in Hfound.
  apply lookup_singleton_Some in Hfound as [<- [= <-]]. reflexivity.
Qed.

(** X17.  [handleRead] asks the backend once, for the object of the id, and
    makes no other call.  The error of the fetch is returned as it is, with
    nothing written; the object fetched is encoded and answered with 200. *)
Theorem handleRead_fetches_once res r id info w :
  (forall x w', handleRead res r id info w = Returns (x, w') ->
                calls w' = calls w ++ [FindOne_call id])
  /\ (forall e s',
         FindOne (source res) id (buildRequest r) (store w) = (Err e, s') ->
         handleRead res r id info w
         = Returns (Err e, {| writer := writer w; store := s';
                              calls := calls w ++ [FindOne_call id] |}))
  /\ (forall obj s' data marshaler contentType body,
         FindOne (source res) id (buildRequest r) (store w) = (Ok obj, s') ->
         MarshalWithURLs obj info = Ok data ->
         selectContentMarshaler r (marshalers res) = Returns (marshaler, contentType) ->
         Marshal marshaler (JObject data) = Ok body ->
         handleRead res r id info w
         = Returns (Ok tt, {| writer := writeResult body StatusOK contentType (writer w);
                              store := s';
                              calls := calls w ++ [FindOne_call id] |})
         /\ answers StatusOK body (writer w)
                    (writeResult body StatusOK contentType (writer w))).
Proof.
  unfold handleRead. split; [|split].
  - intros x w'. run_handler.
    destruct (FindOne (source res) id (buildRequest r) (store w)) as [[obj|e] s'].
    + unfold respondWith. run_handler.
      destruct (MarshalWithURLs obj info) as [data|e]; [|intros [= <- <-]; reflexivity].
      intros Hm. apply marshalResponse_calls in Hm. exact Hm.
    + intros [= <- <-]. reflexivity.
  - intros e s' Hfind. run_handler. rewrite Hfind. reflexivity.
  - intros obj s' data marshaler contentType body Hfind Hdoc Hsel Hm.
    run_handler. rewrite Hfind. unfold respondWith. run_handler. rewrite Hdoc.
    rewrite (marshalResponse_ok _ _ _ _ _ _ _ _ Hsel Hm).
    split; [reflexivity | apply writeResult_answers].
Qed.

(** X18.  [handleDelete] asks the backend once to delete the id.  When the
    backend returns an error nothing is written and the error is returned;
    when it returns none the answer is 204 with no body, and the header map
    is left as it was: no [Content-Type] is set and no marshaler is
    selected, so the answer does not depend on the headers of the
    request. *)
Theorem handleDelete_answers res r id w :
  (forall e s',
      Delete (source res) id (buildRequest r) (store w) = (Some e, s') ->
      handleDelete res r id w
      = Returns (Err e, {| writer := writer w; store := s';
                           calls := calls w ++ [Delete_call id] |}))
  /\ (forall s',
         Delete (source res) id (buildRequest r) (store w) = (None, s') ->
         handleDelete res r id w
         = Returns (Ok tt, {| writer := WriteHeader StatusNoContent (writer w);
                              store := s';
                              calls := calls w ++ [Delete_call id] |})
         /\ answers StatusNoContent "" (writer w) (WriteHeader StatusNoContent (writer w))
         /\ w_header (WriteHeader StatusNoContent (writer w)) = w_header (writer w)).
Proof.
  unfold handleDelete. split.
  - intros e s' Hdel. run_handler. rewrite Hdel. reflexivity.
  - intros s' Hdel. run_handler. rewrite Hdel.
    split; [reflexivity|]. split; [apply WriteHeader_answers|].
    unfold WriteHeader. destruct (w_status (writer w)); reflexivity.
Qed.

End Answers.

(** ** The resources behind a relationship *)

Section LinkedProperties.
Context {Obj BS : Type} `{!Externals Obj} `{!ErrorValues Obj}.

Implicit Types (api : API (Obj := Obj) (BS := BS))
         (res target : resource (Obj := Obj) (BS := BS))
         (w : World (Obj := Obj) (BS := BS)).

Lemma find_resource_first (before after : list (resource (Obj := Obj) (BS := BS)))
    target type_ :
  Forall (fun resource => name resource <> type_) before ->
  name target = type_ ->
  find_resource (before ++ target :: after) type_ = Some target.
Proof.
  intros Hbefore Htarget. induction Hbefore as [|resource before Hne _ IH].
  - cbn [app find_resource]. rewrite Htarget, String.eqb_refl. reflexivity.
  - cbn [app find_resource]. apply String.eqb_neq in Hne. rewrite Hne. exact IH.
Qed.

Lemma find_resource_none (resources : list (resource (Obj := Obj) (BS := BS))) type_ :
  Forall (fun resource => name resource <> type_) resources ->
  find_resource resources type_ = None.
Proof.
  induction 1 as [|resource resources Hne _ IH]; [reflexivity|].
  cbn [find_resource]. apply String.eqb_neq in Hne. rewrite Hne. exact IH.
Qed.

Lemma respondWith_calls (obj : Obj) info code r marshalers w x w' :
  respondWith obj info code r marshalers w = Returns (x, w') ->
  calls w' = calls w /\ store w' = store w.
Proof.
  unfold respondWith, marshalResponse. run_handler.
  destruct (MarshalWithURLs obj info) as [data|e]; [|intros [= <- <-]; auto].
  destruct (selectContentMarshaler r marshalers) as [[m ct]|]; [|discriminate].
  destruct (Marshal m (JObject data)); intros [= <- <-]; auto.
Qed.

(** X19.  [handleLinked] when no registered resource has the name the
    relation points at (its [Type]): the backend is not called, and the
    handler answers by itself, not through [handleError]: it encodes an
    [Error] value whose detail names the relation (its [Name]) and whose
    [Status] field is the conversion of the integer 404 to a string, which
    is not the text ["404"]; when the codec and the marshaler encode it the
    answer is 404, and when the codec refuses it the handler returns the
    error of the codec. *)
Theorem handleLinked_unregistered api res r id linked info w :
  Forall (fun resource => name resource <> ref_Type linked) (api_resources api) ->
  let err :=
    Error_value string_of_StatusNotFound "Not Found"
      ("No resource handler is registered to handle the linked resource "
       +:+ ref_Name linked) in
  string_of_StatusNotFound <> "404"
  /\ (forall x w', handleLinked api res r id linked info w = Returns (x, w') ->
                   calls w' = calls w /\ store w' = store w)
  /\ (forall data marshaler contentType body,
         MarshalWithURLs err info = Ok data ->
         selectContentMarshaler r (marshalers res) = Returns (marshaler, contentType) ->
         Marshal marshaler (JObject data) = Ok body ->
         handleLinked api res r id linked info w
         = Returns (Ok tt, {| writer := writeResult body StatusNotFound contentType (writer w);
                              store := store w; calls := calls w |}))
  /\ (forall e, MarshalWithURLs err info = Err e ->
                handleLinked api res r id linked info w = Returns (Err e, w)).
Proof.
  intros Hnone. cbv zeta. unfold handleLinked.
  rewrite (find_resource_none _ _ Hnone). cbv zeta.
  split; [discriminate|]. split; [|split].
  - intros x w' Hh. exact (respondWith_calls _ _ _ _ _ _ _ _ Hh).
  - intros data marshaler contentType body Hdoc Hsel Hm.
    unfold respondWith. run_handler. rewrite Hdoc.
    exact (marshalResponse_ok _ _ _ _ _ _ _ _ Hsel Hm).
  - intros e Hdoc. unfold respondWith. run_handler. rewrite Hdoc. reflexivity.
Qed.

(** X20.  [handleLinked] when a resource with the name is registered: the
    first such resource in the order of registration is the one asked.  Its
    backend receives the request with the id of the owning object under the
    key [<name of the owning resource>ID], in place of whatever the client
    wrote under that key, and with every other query parameter as
    [buildRequest] gives it.  A backend without the fetch the request needs
    fails with 404 and is not called; otherwise the fetch is made on the
    backend of the related resource and the answer is encoded with the
    marshalers of the owning resource. *)
Theorem handleLinked_dispatch api res r id linked info w before target after :
  api_resources api = before ++ target :: after ->
  Forall (fun resource => name resource <> ref_Type linked) before ->
  name target = ref_Type linked ->
  let request := linked_request res r id in
  let pagination := newPaginationQueryParams r in
  QueryParams request !! (name res +:+ "ID") = Some [id]
  /\ (forall key, key <> name res +:+ "ID" ->
                  QueryParams request !! key = QueryParams (buildRequest r) !! key)
  /\ (isValid pagination = false ->
      (FindAll (source target) = None ->
       handleLinked api res r id linked info w
       = Returns (Err (NewHTTPError None "Resource does not implement the FindAll interface"
                                    StatusNotFound), w))
      /\ (forall findAll,
             FindAll (source target) = Some findAll ->
             handleLinked api res r id linked info w
             = (obj ← backend_call FindAll_call (findAll request);
                respondWith obj info StatusOK r (marshalers res)) w))
  /\ (isValid pagination = true ->
      (PaginatedFindAll (source target) = None ->
       handleLinked api res r id linked info w
       = Returns (Err (NewHTTPError None
                         "Resource does not implement the PaginatedFindAll interface"
                         StatusNotFound), w))
      /\ (forall paginatedFindAll,
             PaginatedFindAll (source target) = Some paginatedFindAll ->
             handleLinked api res r id linked info w
             = ('(objs, count) ← backend_call PaginatedFindAll_call (paginatedFindAll request);
                paginationLinks ← of_getLinks (getLinks pagination r count info);
                respondWithPagination objs info StatusOK paginationLinks r (marshalers res))
                 w)).
Proof.
  intros Hresources Hbefore Htarget. cbv zeta. unfold handleLinked.
  rewrite Hresources, (find_resource_first _ _ _ _ Hbefore Htarget). cbv zeta.
  unfold linked_request. cbn [QueryParams PlainRequest APIHeader buildRequest].
  split; [apply lookup_insert_eq|].
  split; [intros key Hkey; apply lookup_insert_ne; congruence|].
  split.
  - intros ->. split.
    + intros ->. reflexivity.
    + intros findAll ->. reflexivity.
  - intros ->. split.
    + intros ->. reflexivity.
    + intros paginatedFindAll ->. reflexivity.
Qed.

End LinkedProperties.

(** ** Editing relationships *)

Lemma collect_ids_entries newRels acc ids :
  collect_ids newRels acc = Ok ids <->
  exists new, ids = acc ++ new /\ Forall2 entry_has_id newRels new.
Proof.
  revert acc. induction newRels as [|entry newRels IH]; intros acc; cbn [collect_ids].
  - split.
    + intros [= <-]. exists []. rewrite app_nil_r. split; [reflexivity | constructor].
    + intros (new & -> & Hall). inversion Hall. rewrite app_nil_r. reflexivity.
  - split.
    + destruct entry as [| | | | |fields]; try discriminate.
      destruct (lookup_key "id" fields) as [[| | |newID| |]|] eqn:Hid; try discriminate.
      intros Hrest. apply IH in Hrest as (new & -> & Hall).
      exists (newID :: new). rewrite <- app_assoc. split; [reflexivity|].
      constructor; [|exact Hall]. exists fields. auto.
    + intros (new & -> & Hall).
      inversion Hall as [|? newID ? new' (fields & -> & Hid) Hall']; subst.
      rewrite Hid. apply IH. exists new'. rewrite <- app_assoc. auto.
Qed.

Lemma collect_ids_error newRels acc e :
  collect_ids newRels acc = Err e -> served_status e = StatusInternalServerError.
Proof.
  revert acc. induction newRels as [|entry newRels IH]; intros acc; cbn [collect_ids];
    [discriminate|].
  destruct entry as [| | | | |fields]; try (intros [= <-]; reflexivity).
  destruct (lookup_key "id" fields) as [[| | |newID| |]|];
    try (intros [= <-]; reflexivity).
  apply IH.
Qed.

Section RelationshipProperties.
Context {Obj BS : Type} `{!Externals Obj} `{!RelationEditing Obj}.

Implicit Types (res : resource (Obj := Obj) (BS := BS)) (w : World (Obj := Obj) (BS := BS)).

(** X21.  What the two to-many handlers refuse, after the fetch of the
    object and the decoding of the body: a document without [data]; a
    [data] that is not an array; an array with an entry that is not an
    object whose [id] is a string; and a target whose pointer does not
    implement the to-many edit.  Every refusal is a plain error, which is
    answered with 500, and leaves the fetch as the only backend call:
    [Update] is not invoked.  A fetched object that is neither a struct nor
    a pointer makes the handler panic as soon as [data] is there. *)
Theorem handleEditToManyRelation_refusals (edit : Obj -> string -> list string -> Obj)
    res r id relation w oldObj s1 body marshaler contentType inc :
  FindOne (source res) id (buildRequest r) (store w) = (Ok oldObj, s1) ->
  Body r = Ok body ->
  selectContentMarshaler r (marshalers res) = Returns (marshaler, contentType) ->
  Unmarshal marshaler body = Ok inc ->
  let fetched :=
    {| writer := writer w; store := s1; calls := calls w ++ [FindOne_call id] |} in
  let refused e :=
    handleEditToManyRelation edit res r id relation w = Returns (Err e, fetched)
    /\ served_status e = StatusInternalServerError in
  (lookup_key "data" inc = None -> refused need_data)
  /\ (forall data,
         lookup_key "data" inc = Some data ->
         (KindOf oldObj = OtherKind ->
          exists reason, handleEditToManyRelation edit res r id relation w = Panics reason)
         /\ (KindOf oldObj <> OtherKind ->
             ((forall newRels, data <> JArray newRels) -> refused need_array)
             /\ (forall newRels,
                    data = JArray newRels ->
                    (forall ids, ~ Forall2 entry_has_id newRels ids) ->
                    exists e, refused e)
             /\ (forall newRels ids,
                    data = JArray newRels ->
                    Forall2 entry_has_id newRels ids ->
                    EditToManyRelations oldObj = false ->
                    refused (errorString
                               "target struct must implement jsonapi.EditToManyRelations")))).
Proof.
  intros Hfind Hbody Hsel Hun. cbv zeta.
  eassert (handleEditToManyRelation edit res r id relation w = _) as Hstart.
  { unfold handleEditToManyRelation. unfold mbind at 1, handler_bind at 1, backend_call.
    rewrite Hfind. unfold mbind at 1, handler_bind at 1.
    rewrite (unmarshalRequest_ok _ _ _ _ _ _ _ Hbody Hsel Hun). reflexivity. }
  rewrite Hstart. clear Hstart. split.
  - intros ->. split; reflexivity.
  - intros data ->. unfold getRelationUpdateObjects. split.
    + intros ->. eexists. reflexivity.
    + intros Hkind.
      destruct (KindOf oldObj) eqn:Hk; [| |contradiction];
        run_handler; (split; [|split]).
      1,4: intros Hnot; destruct data; try (split; reflexivity);
        exfalso; exact (Hnot _ eq_refl).
      1,3: intros newRels -> Hbad;
        destruct (collect_ids newRels []) as [ids|e] eqn:Hids;
        [exfalso; apply collect_ids_entries in Hids as (new & -> & Hall);
         exact (Hbad _ Hall)|];
        exists e; split; [reflexivity | exact (collect_ids_error _ _ _ Hids)].
      all: intros newRels ids -> Hall Hedit;
        rewrite (proj2 (collect_ids_entries newRels [] ids)) by (exists ids; auto);
        cbn [seen_by_Update]; rewrite Hedit; split; reflexivity.
Qed.

End RelationshipProperties.

Section RelationshipUpdates.
Context {Obj BS : Type} `{!Externals Obj} `{!RelationEditing Obj}.

Implicit Types (res : resource (Obj := Obj) (BS := BS)) (w : World (Obj := Obj) (BS := BS)).

(** X22.  What the two to-many handlers hand to [Update].  The ids given to
    [AddToManyIDs], respectively [DeleteToManyIDs], are the [id] strings of
    the entries of [data], in their order.  For a pointer resource [Update]
    receives the object after the edit; for a struct resource it receives
    the struct as it was copied before the edit, that is the object as it
    was fetched: the edit does not reach the backend.  In both cases
    [Update] is the one call after the fetch, its error is returned with
    nothing written, and its success is answered with 204. *)
Theorem handleEditToManyRelation_update (edit : Obj -> string -> list string -> Obj)
    res r id relation w oldObj s1 body marshaler contentType inc newRels ids :
  FindOne (source res) id (buildRequest r) (store w) = (Ok oldObj, s1) ->
  Body r = Ok body ->
  selectContentMarshaler r (marshalers res) = Returns (marshaler, contentType) ->
  Unmarshal marshaler body = Ok inc ->
  lookup_key "data" inc = Some (JArray newRels) ->
  Forall2 entry_has_id newRels ids ->
  KindOf oldObj <> OtherKind ->
  EditToManyRelations oldObj = true ->
  let updated :=
    match KindOf oldObj with
    | Ptr => edit oldObj (ref_Name relation) ids
    | _ => oldObj
    end in
  let log := calls w ++ [FindOne_call id; Update_call updated] in
  (forall x w', handleEditToManyRelation edit res r id relation w = Returns (x, w') ->
                calls w' = log)
  /\ (forall e s2,
         Update (source res) updated (buildRequest r) s1 = (Some e, s2) ->
         handleEditToManyRelation edit res r id relation w
         = Returns (Err e, {| writer := writer w; store := s2; calls := log |}))
  /\ (forall s2,
         Update (source res) updated (buildRequest r) s1 = (None, s2) ->
         handleEditToManyRelation edit res r id relation w
         = Returns (Ok tt, {| writer := WriteHeader StatusNoContent (writer w);
                              store := s2; calls := log |})).
Proof.
  intros Hfind Hbody Hsel Hun Hdata Hall Hkind Hedit. cbv zeta.
  eassert (handleEditToManyRelation edit res r id relation w = _) as Hstart.
  { unfold handleEditToManyRelation. unfold mbind at 1, handler_bind at 1, backend_call.
    rewrite Hfind. unfold mbind at 1, handler_bind at 1.
    rewrite (unmarshalRequest_ok _ _ _ _ _ _ _ Hbody Hsel Hun).
    rewrite Hdata. unfold getRelationUpdateObjects. reflexivity. }
  rewrite Hstart. clear Hstart.
  destruct (KindOf oldObj) eqn:Hk; [| |contradiction];
    run_handler;
    rewrite (proj2 (collect_ids_entries newRels [] ids)) by (exists ids; auto);
    rewrite Hedit; unfold call_Update; run_handler;
    cbn [seen_by_Update store calls writer];
    match goal with |- context [Update ?s ?o ?q ?st] =>
      destruct (Update s o q st) as [[e|] s2] end;
    (split; [intros x w' [= <- <-]; cbn [calls]; rewrite <- app_assoc; reflexivity|]);
    (split; [intros e' s2' [= <- <-] || intros e' s2' [=]
            |intros s2' [= <-] || intros s2' [=]]);
    cbn [calls store writer]; rewrite <- ?app_assoc; reflexivity.
Qed.

(** X23.  [handleReplaceRelation], after the fetch of the object and the
    decoding of the body: a document without [data] is refused with a plain
    error; an error of the relationship decoder is returned as it is; in
    both cases [Update] is not invoked.  Otherwise [Update] receives, for a
    pointer resource, the object the decoder changed, and for a struct
    resource the struct as it was copied before the decoder ran, the object
    as it was fetched; its success is answered with 204. *)
Theorem handleReplaceRelation_update res r id relation w oldObj s1 body marshaler
    contentType inc :
  FindOne (source res) id (buildRequest r) (store w) = (Ok oldObj, s1) ->
  Body r = Ok body ->
  selectContentMarshaler r (marshalers res) = Returns (marshaler, contentType) ->
  Unmarshal marshaler body = Ok inc ->
  let fetched :=
    {| writer := writer w; store := s1; calls := calls w ++ [FindOne_call id] |} in
  (lookup_key "data" inc = None ->
   handleReplaceRelation res r id relation w = Returns (Err need_data, fetched))
  /\ (forall data cell,
         lookup_key "data" inc = Some data ->
         KindOf oldObj <> OtherKind ->
         (forall e,
             UnmarshalRelationshipsData oldObj (ref_Name relation) data = (cell, Some e) ->
             handleReplaceRelation res r id relation w = Returns (Err e, fetched))
         /\ (UnmarshalRelationshipsData oldObj (ref_Name relation) data = (cell, None) ->
             let updated :=
               match KindOf oldObj with
               | Ptr => cell
               | _ => oldObj
               end in
             let log := calls w ++ [FindOne_call id; Update_call updated] in
             (forall e s2,
                 Update (source res) updated (buildRequest r) s1 = (Some e, s2) ->
                 handleReplaceRelation res r id relation w
                 = Returns (Err e, {| writer := writer w; store := s2; calls := log |}))
             /\ (forall s2,
                    Update (source res) updated (buildRequest r) s1 = (None, s2) ->
                    handleReplaceRelation res r id relation w
                    = Returns (Ok tt, {| writer := WriteHeader StatusNoContent (writer w);
                                         store := s2; calls := log |})))).
Proof.
  intros Hfind Hbody Hsel Hun. cbv zeta.
  eassert (handleReplaceRelation res r id relation w = _) as Hstart.
  { unfold handleReplaceRelation. unfold mbind at 1, handler_bind at 1, backend_call.
    rewrite Hfind. unfold mbind at 1, handler_bind at 1.
    rewrite (unmarshalRequest_ok _ _ _ _ _ _ _ Hbody Hsel Hun). reflexivity. }
  rewrite Hstart. clear Hstart. split.
  - intros ->. reflexivity.
  - intros data cell -> Hkind. unfold getRelationUpdateObjects.
    destruct (KindOf oldObj) eqn:Hk; [| |contradiction]; run_handler;
      (split;
       [intros e ->; reflexivity
       |intros ->; unfold call_Update; run_handler;
        cbn [seen_by_Update store calls writer];
        match goal with |- context [Update ?s ?o ?q ?st] =>
          destruct (Update s o q st) as [[e|] s2] end;
        (split; [intros e' s2' [= <- <-] || intros e' s2' [=]
                |intros s2' [= <-] || intros s2' [=]]);
        cbn [calls store writer]; rewrite <- ?app_assoc; reflexivity]).
Qed.

End RelationshipUpdates.

(** ** The relationship handlers on the samples *)

Lemma handleLinked_unregistered_witness :
  let r := Sample.request "GET" "/v1/posts/1/author" [] "" in
  handleLinked Related.api (Sample.posts Sample.crud_only) r "1" Related.to_author
               Sample.info (Sample.world Sample.one_post)
  = Returns (Ok tt,
             {| writer :=
                  writeResult
                    "{data:Not Found: No resource handler is registered to handle the linked resource author;}"
                    StatusNotFound jsonapi_mime new_writer;
                store := Sample.one_post; calls := [] |}).
Proof.
  cbv zeta.
  destruct (@handleLinked_unregistered Sample.Obj Sample.Store Sample.externals
              Related.error_values Related.api (Sample.posts Sample.crud_only)
              (Sample.request "GET" "/v1/posts/1/author" [] "") "1" Related.to_author
              Sample.info (Sample.world Sample.one_post))
    as (_ & _ & Hanswer & _).
  - repeat constructor; discriminate.
  - exact (Hanswer _ JSONContentMarshaler jsonapi_mime _ eq_refl eq_refl eq_refl).
Defined.

Lemma handleLinked_dispatch_witness :
  let r := Sample.request "GET" "/v1/posts/1/comments" [("postsID", "5")] "" in
  QueryParams (linked_request (Sample.posts Sample.crud_only) r "1") !! "postsID"
  = Some ["1"].
Proof.
  cbv zeta.
  apply (@handleLinked_dispatch Sample.Obj Sample.Store Sample.externals
           Related.error_values Related.api (Sample.posts Sample.crud_only)
           (Sample.request "GET" "/v1/posts/1/comments" [("postsID", "5")] "") "1"
           Related.to_comments Sample.info (Sample.world Sample.one_post)
           [Sample.posts Sample.crud_only] Related.comments []).
  - reflexivity.
  - repeat constructor. discriminate.
  - reflexivity.
Defined.

Lemma handleEditToManyRelation_refusals_witness :
  let r := Sample.request "POST" "/v1/posts/1/relationships/comments" [] "one" in
  handleAddToManyRelation (Sample.posts Sample.crud_only) r "1" Related.to_comments
                          (Sample.world Sample.one_post)
  = Returns (Err need_array,
             {| writer := new_writer; store := Sample.one_post;
                calls := [FindOne_call "1"] |}).
Proof.
  cbv zeta.
  destruct (@handleEditToManyRelation_refusals Sample.Obj Sample.Store Sample.externals
              Related.relation_editing AddToManyIDs (Sample.posts Sample.crud_only)
              (Sample.request "POST" "/v1/posts/1/relationships/comments" [] "one") "1"
              Related.to_comments (Sample.world Sample.one_post)
              "old title" Sample.one_post "one" JSONContentMarshaler jsonapi_mime
              [("data", JObject [("id", JString "1"); ("type", JString "posts");
                                 ("title", JString "new title")])]
              eq_refl eq_refl eq_refl eq_refl)
    as (_ & Hdata).
  destruct (Hdata _ eq_refl) as (_ & Hkind).
  destruct Hkind as (Hnot & _); [discriminate|].
  apply Hnot. discriminate.
Defined.

Lemma handleEditToManyRelation_update_witness :
  let r := Related.add_comments in
  handleAddToManyRelation Related.posts_two_ids r "1" Related.to_comments
                          (Sample.world Related.pointer_post)
  = Returns (Ok tt,
             {| writer := WriteHeader StatusNoContent new_writer;
                store := Related.pointer_post;
                calls := [FindOne_call "1"; Update_call "&post comments+7,9"] |})
  /\ handleAddToManyRelation Related.posts_two_ids r "1" Related.to_comments
                             (Sample.world Sample.one_post)
     = Returns (Ok tt,
                {| writer := WriteHeader StatusNoContent new_writer;
                   store := Sample.one_post;
                   calls := [FindOne_call "1"; Update_call "old title"] |}).
Proof.
  cbv zeta. split.
  - destruct (@handleEditToManyRelation_update Sample.Obj Sample.Store Sample.externals
               Related.relation_editing AddToManyIDs Related.posts_two_ids
               Related.add_comments "1"
               Related.to_comments (Sample.world Related.pointer_post)
               "&post" Related.pointer_post "" Related.two_ids jsonapi_mime
               [("data", JArray [JObject [("id", JString "7"); ("type", JString "comments")];
                                 JObject [("id", JString "9"); ("type", JString "comments")]])]
               [JObject [("id", JString "7"); ("type", JString "comments")];
                JObject [("id", JString "9"); ("type", JString "comments")]]
               ["7"; "9"])
      as (_ & _ & Hok);
      [reflexivity | reflexivity | reflexivity | reflexivity | reflexivity
      | repeat constructor; eexists; split; reflexivity
      | cbv; discriminate | reflexivity |].
    exact (Hok _ eq_refl).
  - destruct (@handleEditToManyRelation_update Sample.Obj Sample.Store Sample.externals
               Related.relation_editing AddToManyIDs Related.posts_two_ids
               Related.add_comments "1"
               Related.to_comments (Sample.world Sample.one_post)
               "old title" Sample.one_post "" Related.two_ids jsonapi_mime
               [("data", JArray [JObject [("id", JString "7"); ("type", JString "comments")];
                                 JObject [("id", JString "9"); ("type", JString "comments")]])]
               [JObject [("id", JString "7"); ("type", JString "comments")];
                JObject [("id", JString "9"); ("type", JString "comments")]]
               ["7"; "9"])
      as (_ & _ & Hok);
      [reflexivity | reflexivity | reflexivity | reflexivity | reflexivity
      | repeat constructor; eexists; split; reflexivity
      | cbv; discriminate | reflexivity |].
    exact (Hok _ eq_refl).
Defined.

Lemma handleReplaceRelation_update_witness :
  let r := Sample.request "PATCH" "/v1/posts/1/relationships/author" [] "no data" in
  handleReplaceRelation (Sample.posts Sample.crud_only) r "1" Related.to_author
                        (Sample.world Sample.one_post)
  = Returns (Err need_data,
             {| writer := new_writer; store := Sample.one_post;
                calls := [FindOne_call "1"] |}).
Proof.
  cbv zeta.
  apply (@handleReplaceRelation_update Sample.Obj Sample.Store Sample.externals
           Related.relation_editing (Sample.posts Sample.crud_only)
           (Sample.request "PATCH" "/v1/posts/1/relationships/author" [] "no data") "1"
           Related.to_author (Sample.world Sample.one_post)
           "old title" Sample.one_post "no data" JSONContentMarshaler jsonapi_mime []
           eq_refl eq_refl eq_refl eq_refl).
  reflexivity.
Defined.
